(** * KM24 agent backend: gateway, filter translation and validation

    A shallow embedding of [backend/km24_client.py] (the [KM24Client]
    gateway) and of the validation pipeline of [backend/main.py]
    ([validate_filters_with_km24], [search_hits]), with the properties
    the specification states about them.

    Python values that come out of [response.json()] or out of a request
    body are modelled by the type [value]; JSON numbers are restricted to
    integers (floating point payloads are outside this model).  Coroutines
    are run to completion one after the other, so [await] is sequencing
    in a state-and-exception monad over the [world]: the client object,
    the requests sent to the platform so far, and the log. *)

From stdpp Require Import gmap strings list fin_maps pretty.

Set Warnings "-register-all".

Open Scope Z_scope.

(* ===================================================================== *)
(** * Python values                                                       *)
(* ===================================================================== *)

Inductive value :=
| VNone
| VBool (b : bool)
| VInt (n : Z)
| VStr (s : string)
| VList (l : list value)
| VDict (d : gmap string value).

(** [bool(v)]: the truth value Python gives to [v] in [if v] and [v and _]. *)
Definition truthy (v : value) : bool :=
  match v with
  | VNone => false
  | VBool b => b
  | VInt n => negb (n =? 0)
  | VStr s => match s with EmptyString => false | String _ _ => true end
  | VList l => match l with [] => false | _ :: _ => true end
  | VDict d => negb (Nat.eqb (size d) 0)
  end.

(** The integer a value compares as: [bool] is a subclass of [int]. *)
Definition as_number (v : value) : option Z :=
  match v with
  | VInt n => Some n
  | VBool b => Some (Z.b2z b)
  | _ => None
  end.

(** [str(v)] as an f-string renders it.  Containers are elided: every
    format site of the pipeline that receives a [value] is guarded by an
    ordering comparison, which raises on anything but a number. *)
Definition py_str (v : value) : string :=
  match v with
  | VNone => "None"
  | VBool true => "True"
  | VBool false => "False"
  | VInt n => pretty n
  | VStr s => s
  | VList _ => "[...]"
  | VDict _ => "{...}"
  end.

(** A Python [str] is a sequence of code points; the strings of this
    development are UTF-8 byte strings.  [code_points] cuts a byte string
    before every byte that is not a continuation byte [10xxxxxx]. *)
Definition is_continuation (a : Ascii.ascii) : bool :=
  let n := Ascii.N_of_ascii a in ((128 <=? n) && (n <? 192))%N.

Fixpoint code_points_aux (s : string) : string * list string :=
  match s with
  | EmptyString => (EmptyString, [])
  | String a s' =>
      let '(pre, cps) := code_points_aux s' in
      if is_continuation a then (String a pre, cps)
      else (EmptyString, String a pre :: cps)
  end.

Definition code_points (s : string) : list string :=
  let '(pre, cps) := code_points_aux s in
  match pre with EmptyString => cps | _ => pre :: cps end.

(* ===================================================================== *)
(** * Exceptions                                                          *)
(* ===================================================================== *)

Inductive exn :=
| ConnectError                            (* httpx: no response at all *)
| HTTPStatusError (status_code : Z)       (* httpx: raise_for_status *)
| JSONDecodeError                         (* response.json() *)
| KeyError (key : string)
| TypeError
| AttributeError
| ValidationError                         (* pydantic *)
| HTTPException (status_code : Z) (detail : string).   (* fastapi *)

(** Pure code that may raise. *)
Definition result (A : Type) : Type := exn + A.

Definition ok {A} (x : A) : result A := inr x.
Definition err {A} (e : exn) : result A := inl e.

#[global] Instance result_ret : MRet result := λ A x, inr x.
#[global] Instance result_bind : MBind result := λ A B f m,
  match m with
  | inl e => inl e
  | inr x => f x
  end.

(** [v[k]] with a string key. *)
Definition getitem (v : value) (k : string) : result value :=
  match v with
  | VDict d => match d !! k with Some x => ok x | None => err (KeyError k) end
  | _ => err TypeError
  end.

(** [d[k]] on an object known to be a dict. *)
Definition dict_getitem (d : gmap string value) (k : string) : result value :=
  match d !! k with Some x => ok x | None => err (KeyError k) end.

(** [v.get(k, dflt)]: only a dict has the method. *)
Definition get (v : value) (k : string) (dflt : value) : result value :=
  match v with
  | VDict d => ok (default dflt (d !! k))
  | _ => err AttributeError
  end.

(** [len(v)]. *)
Definition len (v : value) : result nat :=
  match v with
  | VList l => ok (length l)
  | VStr s => ok (length (code_points s))
  | VDict d => ok (size d)
  | _ => err TypeError
  end.

(** [l[:n]] on a list: a negative [n] counts from the end. *)
Definition slice_to {A} (l : list A) (n : Z) : list A :=
  if 0 <=? n then take (Z.to_nat n) l
  else take (length l - Z.to_nat (- n))%nat l.

(** [v[:n]].  A dict has no slices (slicing it raises [TypeError], and
    [KeyError] from Python 3.12 on). *)
Definition slice_value (v : value) (n : Z) : result value :=
  match v with
  | VList l => ok (VList (slice_to l n))
  | VStr s => ok (VStr (fold_right String.append EmptyString (slice_to (code_points s) n)))
  | VDict _ => err TypeError
  | _ => err TypeError
  end.

(** [for x in v]: the elements a loop or comprehension goes through.  A
    dict iterates over its keys. *)
Definition iterate (v : value) : result (list value) :=
  match v with
  | VList l => ok l
  | VStr s => ok (VStr <$> code_points s)
  | VDict d => ok (VStr <$> (map_to_list d).*1)
  | _ => err TypeError
  end.

(** [v == k] against an integer literal: never raises. *)
Definition py_eq_int (v : value) (k : Z) : bool :=
  match as_number v with Some n => n =? k | None => false end.

(** [v > k] against an integer literal: raises on anything but a number. *)
Definition py_gt_int (v : value) (k : Z) : result bool :=
  match as_number v with Some n => ok (k <? n) | None => err TypeError end.

(* ===================================================================== *)
(** * Data model                                                          *)
(* ===================================================================== *)

(** [km24_client.KM24Module]. *)
Record KM24Module := {
  m_id : Z;
  m_title : string;
  m_emoji : string;
  m_description : option string;
  m_parts : list (gmap string value);
}.

(** [main.Hit]. *)
Record Hit := {
  hit_title : string;
  hit_date : option string;
  hit_summary : option string;
  hit_url : option string;
}.

(** [main.ValidationResult]. *)
Record ValidationResult := {
  is_valid : bool;
  sample_hits : list Hit;
  hit_count : Z;
  warnings : list string;
  suggestions : list string;
}.

(** One entry of the [parts] list that [validate_filters_with_km24]
    builds: the dict [{"modulePartId": _, "values": _}]. *)
Record StepPart := {
  modulePartId : value;
  values : list value;
}.

(** What the source takes from its libraries: [str(e)] of an exception,
    and pydantic's validation of a value against the field types [int]
    and [str].  Both pydantic major versions accept an [int] for [int]
    and a [str] for [str]; what else they accept differs, and is left
    open. *)
Class Runtime := {
  exn_str : exn → string;
  coerce_int : value → option Z;
  coerce_str : value → option string;
  coerce_int_VInt n : coerce_int (VInt n) = Some n;
  coerce_str_VStr s : coerce_str (VStr s) = Some s;
}.

Section Models.
Context `{!Runtime}.

(** Validation against [Optional[str]]. *)
Definition coerce_opt_str (v : value) : option (option string) :=
  match v with
  | VNone => Some None
  | _ => Some <$> coerce_str v
  end.

(** Validation against [List[Dict[str, Any]]]. *)
Definition coerce_dict (v : value) : option (gmap string value) :=
  match v with VDict d => Some d | _ => None end.

Definition coerce_dict_list (v : value) : option (list (gmap string value)) :=
  match v with
  | VList l => mapM coerce_dict l
  | _ => None
  end.

Definition validated {A} (o : option A) : result A :=
  match o with Some x => ok x | None => err ValidationError end.

(** [KM24Module(id=_, title=_, emoji=_, description=_, parts=_)]. *)
Definition KM24Module_new (id title emoji description parts : value)
  : result KM24Module :=
  validated (
    id ← coerce_int id;
    title ← coerce_str title;
    emoji ← coerce_str emoji;
    description ← coerce_opt_str description;
    parts ← coerce_dict_list parts;
    Some {| m_id := id; m_title := title; m_emoji := emoji;
            m_description := description; m_parts := parts |}).

(** [Hit(title=_, date=_, summary=_, url=_)]. *)
Definition Hit_new (title date summary url : value) : result Hit :=
  validated (
    title ← coerce_str title;
    date ← coerce_opt_str date;
    summary ← coerce_opt_str summary;
    url ← coerce_opt_str url;
    Some {| hit_title := title; hit_date := date;
            hit_summary := summary; hit_url := url |}).

(** [ValidationResult(is_valid=_, sample_hits=_, hit_count=_,
    warnings=_, suggestions=_)]: only [hit_count] is handed over as an
    unvalidated value. *)
Definition ValidationResult_new (is_valid : bool) (sample_hits : list Hit)
    (hit_count : value) (warnings suggestions : list string)
  : result ValidationResult :=
  validated (
    hit_count ← coerce_int hit_count;
    Some {| is_valid := is_valid; sample_hits := sample_hits;
            hit_count := hit_count; warnings := warnings;
            suggestions := suggestions |}).
End Models.

(* ===================================================================== *)
(** * The platform, the log and the world                                 *)
(* ===================================================================== *)

(** The requests the gateway sends, by endpoint. *)
Inductive request :=
| GET_modules                                (* GET /modules/basic *)
| GET_module (module_id : Z)                 (* GET /modules/basic/{id} *)
| POST_step (name : string) (module_id : Z) (lookback_days : Z)
            (parts : list StepPart)          (* POST /steps/main *)
| GET_hits (step_id : value) (page page_size : Z) (ordering : string)
                                             (* GET /steps/main/hits/{id} *)
| DELETE_step (step_id : value).             (* DELETE /steps/main/{id} *)

(** What comes back: nothing (the transport failed), or a status code
    with a body, which is JSON or not. *)
Inductive reply :=
| NoResponse
| Response (status_code : Z) (body : option value).

(** The lines the two loggers write. *)
Inductive log_event :=
| LoadedModules (n : nat)
| ErrorFetchingModules (e : exn)
| LoadedModule (module_id : Z) (title : string) (n_parts : nat)
| ErrorFetchingModule (module_id : Z) (e : exn)
| CreatedStep (step_id : value) (name : string)
| ErrorCreatingStep (e : exn)
| FetchedHits (n : nat) (step_id : value)
| ErrorFetchingHits (step_id : value) (e : exn)
| DeletedStep (step_id : value)
| ErrorDeletingStep (step_id : value) (e : exn)
| ErrorValidatingFilters (e : exn)
| SearchingHits (module_id : Z) (limit : Z)
| ErrorInSearchHits (e : exn).

(** [km24_client.KM24Client]: the state of a client object. *)
Record KM24Client := {
  api_key : string;
  _modules_cache : option (list KM24Module);
}.

(** The global [km24_client] of [main] ([None] when no key is
    configured), the requests sent so far, and the log. *)
Record world := {
  km24_client : option KM24Client;
  requests : list request;
  log : list log_event;
}.

Definition set_modules_cache (c : option (list KM24Module)) (σ : world) : world :=
  {| km24_client :=
       (λ self, {| api_key := api_key self; _modules_cache := c |}) <$> km24_client σ;
     requests := requests σ;
     log := log σ |}.

Definition add_request (r : request) (σ : world) : world :=
  {| km24_client := km24_client σ;
     requests := requests σ ++ [r];
     log := log σ |}.

Definition add_log (ev : log_event) (σ : world) : world :=
  {| km24_client := km24_client σ;
     requests := requests σ;
     log := log σ ++ [ev] |}.

(* ===================================================================== *)
(** * The monad of effectful code                                         *)
(* ===================================================================== *)

Definition M (A : Type) : Type := world → result A * world.

#[global] Instance M_ret : MRet M := λ A x σ, (inr x, σ).
#[global] Instance M_bind : MBind M := λ A B f m σ,
  match m σ with
  | (inl e, σ') => (inl e, σ')
  | (inr x, σ') => f x σ'
  end.

(** [raise e]. *)
Definition raise {A} (e : exn) : M A := λ σ, (inl e, σ).

(** Pure code inside effectful code. *)
Definition lift {A} (r : result A) : M A := λ σ, (r, σ).

(** [try: body  except Exception as e: handler(e)]. *)
Definition try_except {A} (body : M A) (handler : exn → M A) : M A := λ σ,
  match body σ with
  | (inl e, σ') => handler e σ'
  | (inr x, σ') => (inr x, σ')
  end.

(** [logger.info(_)] and [logger.error(_)]. *)
Definition logger (ev : log_event) : M unit := λ σ, (inr tt, add_log ev σ).

(** The object behind a method's [self]; a method called on [None]
    raises. *)
Definition this : M KM24Client := λ σ,
  match km24_client σ with
  | Some self => (inr self, σ)
  | None => (inl AttributeError, σ)
  end.

(* ===================================================================== *)
(** * [km24_client.py]: the gateway                                        *)
(* ===================================================================== *)

Section Service.
Context `{!Runtime}.

(** The platform: what it replies to a request, given the requests it
    has received before. *)
Variable platform : list request → request → reply.

(** [await self.client.get/post/delete(_)]. *)
Definition http (r : request) : M (Z * option value) := λ σ,
  match platform (requests σ) r with
  | NoResponse => (inl ConnectError, add_request r σ)
  | Response status body => (inr (status, body), add_request r σ)
  end.

(** [response.raise_for_status()]: anything but 2xx raises. *)
Definition raise_for_status (response : Z * option value) : M unit :=
  if (200 <=? response.1) && (response.1 <=? 299) then mret tt
  else raise (HTTPStatusError response.1).

(** [response.json()]. *)
Definition json (response : Z * option value) : M value :=
  match response.2 with
  | Some data => mret data
  | None => raise JSONDecodeError
  end.

(** [self._modules_cache = modules]. *)
Definition store_modules_cache (modules : list KM24Module) : M unit := λ σ,
  (inr tt, set_modules_cache (Some modules) σ).

(** One element of the comprehension of [get_modules]. *)
Definition module_summary (m : value) : result KM24Module :=
  id ← getitem m "id";
  title ← getitem m "title";
  emoji ← get m "emoji" (VStr "ðŸ“Š");
  description ← get m "description" VNone;
  KM24Module_new id title emoji description (VList []).

Definition get_modules (force_refresh : bool) : M (list KM24Module) :=
  self ← this;
  match _modules_cache self, force_refresh with
  | Some (m :: ms), false => mret (m :: ms)
  | _, _ =>
      try_except
        (response ← http GET_modules;
         raise_for_status response;;
         data ← json response;
         items ← lift (get data "items" (VList []) ≫= iterate);
         modules ← lift (mapM module_summary items);
         store_modules_cache modules;;
         logger (LoadedModules (length modules));;
         mret modules)
        (λ e, logger (ErrorFetchingModules e);; raise e)
  end.

(** The [KM24Module(_)] call of [get_module]. *)
Definition module_detail (data : value) : result KM24Module :=
  id ← getitem data "id";
  title ← getitem data "title";
  emoji ← get data "emoji" (VStr "ðŸ“Š");
  description ← get data "description" VNone;
  parts ← get data "parts" (VList []);
  KM24Module_new id title emoji description parts.

Definition get_module (module_id : Z) : M KM24Module :=
  this;;
  try_except
    (response ← http (GET_module module_id);
     raise_for_status response;;
     data ← json response;
     module ← lift (module_detail data);
     logger (LoadedModule module_id (m_title module) (length (m_parts module)));;
     mret module)
    (λ e, logger (ErrorFetchingModule module_id e);; raise e).

Definition create_step (name : string) (module_id : Z)
    (parts : list StepPart) (lookback_days : Z) : M value :=
  this;;
  try_except
    (response ← http (POST_step name module_id lookback_days parts);
     raise_for_status response;;
     step ← json response;
     step_id ← lift (getitem step "id");
     logger (CreatedStep step_id name);;
     mret step)
    (λ e, logger (ErrorCreatingStep e);; raise e).

Definition get_step_hits (step_id : value) (page page_size : Z)
    (ordering : string) : M value :=
  this;;
  try_except
    (response ← http (GET_hits step_id page page_size ordering);
     raise_for_status response;;
     hits ← json response;
     n ← lift (get hits "items" (VList []) ≫= len);
     logger (FetchedHits n step_id);;
     mret hits)
    (λ e, logger (ErrorFetchingHits step_id e);; raise e).

Definition delete_step (step_id : value) : M unit :=
  this;;
  try_except
    (response ← http (DELETE_step step_id);
     raise_for_status response;;
     logger (DeletedStep step_id))
    (λ e, logger (ErrorDeletingStep step_id e);; raise e).

(** ** What a method makes of a reply

    The pure part of each method: the value it returns, or the
    exception it logs and re-raises, as a function of the platform's
    reply. *)

Definition check_status (r : reply) : result (option value) :=
  match r with
  | NoResponse => err ConnectError
  | Response status body =>
      if (200 <=? status) && (status <=? 299) then ok body
      else err (HTTPStatusError status)
  end.

Definition decode_json (r : reply) : result value :=
  body ← check_status r;
  match body with
  | Some data => ok data
  | None => err JSONDecodeError
  end.

Definition module_list (r : reply) : result (list KM24Module) :=
  data ← decode_json r;
  items ← get data "items" (VList []);
  elems ← iterate items;
  mapM module_summary elems.

Definition module_reply (r : reply) : result KM24Module :=
  data ← decode_json r;
  module_detail data.

Definition step_reply (r : reply) : result (value * value) :=
  step ← decode_json r;
  step_id ← getitem step "id";
  ok (step, step_id).

Definition hits_reply (r : reply) : result (value * nat) :=
  hits ← decode_json r;
  items ← get hits "items" (VList []);
  n ← len items;
  ok (hits, n).

(* =================================================================== *)
(** * [main.py]: translation, validation, search                        *)
(* =================================================================== *)

(** [part_map = {p["slug"]: p["id"] for p in module.parts}].  A later
    part replaces an earlier one with the same slug; a list or a dict
    cannot be a key.  The map is only ever asked for [str] keys, so a
    slug that is hashable but no [str] leaves no entry a lookup could
    find. *)
Definition part_map_add (part_map : gmap string value)
    (p : gmap string value) : result (gmap string value) :=
  slug ← dict_getitem p "slug";
  id ← dict_getitem p "id";
  match slug with
  | VStr s => ok (<[s := id]> part_map)
  | VList _ | VDict _ => err TypeError
  | _ => ok part_map
  end.

Fixpoint build_part_map_from (part_map : gmap string value)
    (parts : list (gmap string value)) : result (gmap string value) :=
  match parts with
  | [] => ok part_map
  | p :: rest =>
      part_map' ← part_map_add part_map p;
      build_part_map_from part_map' rest
  end.

Definition build_part_map (parts : list (gmap string value))
  : result (gmap string value) :=
  build_part_map_from ∅ parts.

(** [[filter_value] if not isinstance(filter_value, list) else
    filter_value]. *)
Definition as_values (filter_value : value) : list value :=
  match filter_value with
  | VList l => l
  | _ => [filter_value]
  end.

(** The loop over [filters.items()], with the list [parts] it appends
    to. *)
Fixpoint convert_filters (part_map : gmap string value)
    (filters : list (string * value)) (parts : list StepPart)
  : list StepPart :=
  match filters with
  | [] => parts
  | (filter_name, filter_value) :: rest =>
      match truthy filter_value, part_map !! filter_name with
      | true, Some part_id =>
          convert_filters part_map rest
            (parts ++ [{| modulePartId := part_id;
                          values := as_values filter_value |}])
      | _, _ => convert_filters part_map rest parts
      end
  end.

(** Lines 259-271 of [main.py]: the filter translator. *)
Definition translate (module : KM24Module) (filters : list (string * value))
  : result (list StepPart) :=
  part_map ← build_part_map (m_parts module);
  ok (convert_filters part_map filters []).

(** One element of the comprehension that builds [sample_hits]. *)
Definition project_hit (hit : value) : result Hit :=
  title ← get hit "title" (VStr "Untitled");
  date ← get hit "hitDatetime" VNone;
  description ← get hit "description" (VStr "");
  summary ← get hit "summary" description;
  url ← get hit "url" VNone;
  Hit_new title date summary url.

(** [[Hit(_) for hit in hits_data.get("items", [])[:3]]]. *)
Definition project_hits (hits_data : value) : result (list Hit) :=
  items ← get hits_data "items" (VList []);
  first ← slice_value items 3;
  hits ← iterate first;
  mapM project_hit hits.

(** Lines 312-321 of [main.py]: warnings and suggestions. *)
Definition classify (hit_count : value) : result (list string * list string) :=
  if py_eq_int hit_count 0 then
    ok (["Ingen hits fundet med disse filtre"],
        ["Prøv at udvide søgningen ved at fjerne nogle filtre"])
  else
    high ← py_gt_int hit_count 100;
    if high : bool then
      ok (["Meget høj hitrate (" +:+ py_str hit_count +:+ " hits)"],
          ["Overvej at indsnævre med flere specifikke filtre"])
    else ok ([], []).

Definition no_filters_result : result ValidationResult :=
  ValidationResult_new false [] (VInt 0)
    ["Ingen filtre valgt"]
    ["Tilføj mindst ét filter for at indsnævre søgningen"].

(** [step_name = f"__temp_validation_{module_id}"]. *)
Definition step_name (module_id : Z) : string :=
  "__temp_validation_" +:+ pretty module_id.

(** The body of the [try] block once [parts] is not empty. *)
Definition validate_with_step (module_id : Z) (parts : list StepPart)
  : M ValidationResult :=
  step ← create_step (step_name module_id) module_id parts 30;
  step_id ← lift (getitem step "id");
  hits_data ← get_step_hits step_id 1 10 "-hitDatetime";
  sample_hits ← lift (project_hits hits_data);
  hit_count ← lift (get hits_data "count" (VInt 0));
  delete_step step_id;;
  '(warnings, suggestions) ← lift (classify hit_count);
  is_valid ← lift (py_gt_int hit_count 0);
  lift (ValidationResult_new is_valid sample_hits hit_count
          warnings suggestions).

(** The [except Exception as e] clause of
    [validate_filters_with_km24]. *)
Definition on_validation_error (e : exn) : M ValidationResult :=
  logger (ErrorValidatingFilters e);;
  raise (HTTPException 500 ("Failed to validate filters: " +:+ exn_str e)).

Definition validate_filters_with_km24 (module_id : Z)
    (filters : list (string * value)) : M ValidationResult := λ σ,
  match km24_client σ with
  | None => raise (HTTPException 500 "KM24 API not configured") σ
  | Some _ =>
      try_except
        (module ← get_module module_id;
         parts ← lift (translate module filters);
         match parts with
         | [] => lift no_filters_result
         | _ :: _ => validate_with_step module_id parts
         end)
        on_validation_error
        σ
  end.

(** The endpoint [/api/monitoring/search-hits]. *)
Definition search_hits (module_id : Z) (filters : list (string * value))
    (limit : Z) : M (list Hit) :=
  try_except
    (logger (SearchingHits module_id limit);;
     validation ← validate_filters_with_km24 module_id filters;
     mret (slice_to (sample_hits validation) limit))
    (λ e,
       match e with
       | HTTPException _ _ => raise e
       | _ =>
           logger (ErrorInSearchHits e);;
           raise (HTTPException 500 (exn_str e))
       end).

(* =================================================================== *)
(** * Vocabulary of the properties                                      *)
(* =================================================================== *)

(** ** How far a run of [validate_filters_with_km24] gets *)

(** From [σ] the run has fetched the module, translated the filters
    into the non-empty [parts], created the step [step_id] and is in
    [σ2]. *)
Definition step_created (module_id : Z) (filters : list (string * value))
    (σ : world) (parts : list StepPart) (step_id : value) (σ2 : world)
  : Prop :=
  ∃ module step σ1,
    get_module module_id σ = (inr module, σ1) ∧
    translate module filters = inr parts ∧
    parts ≠ [] ∧
    create_step (step_name module_id) module_id parts 30 σ1 = (inr step, σ2) ∧
    getitem step "id" = inr step_id.

(** ... and has fetched [hits_data] for it, and is in [σ3]. *)
Definition hits_fetched (module_id : Z) (filters : list (string * value))
    (σ : world) (step_id hits_data : value) (σ3 : world) : Prop :=
  ∃ parts σ2,
    step_created module_id filters σ parts step_id σ2 ∧
    get_step_hits step_id 1 10 "-hitDatetime" σ2 = (inr hits_data, σ3).

(** ... and has projected [sample] and read [count] out of it: the
    next statement is the deletion of the step. *)
Definition ready_to_clean_up (module_id : Z) (filters : list (string * value))
    (σ : world) (step_id : value) (sample : list Hit) (count : value)
    (σ3 : world) : Prop :=
  ∃ hits_data,
    hits_fetched module_id filters σ step_id hits_data σ3 ∧
    project_hits hits_data = inr sample ∧
    get hits_data "count" (VInt 0) = inr count.

(** The run fails with [e] in state [σf] at one of the four stages
    before the deletion, having sent the requests [sent]. *)
Inductive pipeline_failure (module_id : Z) (filters : list (string * value))
    (σ : world) : exn → world → list request → Prop :=
| module_fetch_fails e σ1 :
    get_module module_id σ = (inl e, σ1) →
    pipeline_failure module_id filters σ e σ1 [GET_module module_id]
| translation_fails module e σ1 :
    get_module module_id σ = (inr module, σ1) →
    translate module filters = inl e →
    pipeline_failure module_id filters σ e σ1 [GET_module module_id]
| step_creation_fails module parts e σ1 σ2 :
    get_module module_id σ = (inr module, σ1) →
    translate module filters = inr parts →
    parts ≠ [] →
    create_step (step_name module_id) module_id parts 30 σ1 = (inl e, σ2) →
    pipeline_failure module_id filters σ e σ2
      [GET_module module_id;
       POST_step (step_name module_id) module_id 30 parts]
| hit_fetch_fails parts step_id e σ2 σ3 :
    step_created module_id filters σ parts step_id σ2 →
    get_step_hits step_id 1 10 "-hitDatetime" σ2 = (inl e, σ3) →
    pipeline_failure module_id filters σ e σ3
      [GET_module module_id;
       POST_step (step_name module_id) module_id 30 parts;
       GET_hits step_id 1 10 "-hitDatetime"].

(** ** Translation *)

(** A part as the data model has it: a slug that is a string, and an
    id. *)
Definition well_formed_part (p : gmap string value) : Prop :=
  (∃ slug, p !! "slug" = Some (VStr slug)) ∧ is_Some (p !! "id").

Definition slug_of (p : gmap string value) : option string :=
  match p !! "slug" with Some (VStr slug) => Some slug | _ => None end.

(** The slugs of a module's parts. *)
Definition slugs (module : KM24Module) : gset string :=
  list_to_set (omap slug_of (m_parts module)).

(** The pairs of a filter mapping that translation keeps. *)
Definition survives (module : KM24Module) (pair : string * value) : Prop :=
  truthy pair.2 ∧ pair.1 ∈ slugs module.

#[global] Instance survives_dec module pair : Decision (survives module pair).
Proof. unfold survives. apply _. Defined.

(** [part] is what translation emits for [pair]. *)
Definition emitted (module : KM24Module) (pair : string * value)
    (part : StepPart) : Prop :=
  (∃ p, p ∈ m_parts module ∧ p !! "slug" = Some (VStr pair.1) ∧
        p !! "id" = Some (modulePartId part)) ∧
  (∀ l, pair.2 = VList l → values part = l) ∧
  ((∀ l, pair.2 ≠ VList l) → values part = [pair.2]).

(** ** Projection of hits *)

(** [hit] is the projection of the raw hit [raw]. *)
Definition projects (raw : value) (hit : Hit) : Prop :=
  ∃ d, raw = VDict d ∧
    (d !! "title" = None → hit_title hit = "Untitled") ∧
    (∀ title, d !! "title" = Some (VStr title) → hit_title hit = title) ∧
    (∀ summary, d !! "summary" = Some (VStr summary) →
       hit_summary hit = Some summary) ∧
    (∀ description, d !! "summary" = None →
       d !! "description" = Some (VStr description) →
       hit_summary hit = Some description).

End Service.

(* ===================================================================== *)
(** * Scenarios                                                           *)
(* ===================================================================== *)

(** Concrete platforms and inputs, after the scenarios of the
    specification: module 110 with the one part [{id: 5, slug:
    "kommune"}], step id 42, five hits. *)
Module Scenario.

Definition show_exn (e : exn) : string :=
  match e with
  | ConnectError => "connection failed"
  | HTTPStatusError status => "status " +:+ pretty status
  | JSONDecodeError => "invalid JSON"
  | KeyError k => "'" +:+ k +:+ "'"
  | TypeError => "type error"
  | AttributeError => "attribute error"
  | ValidationError => "validation error"
  | HTTPException status detail => pretty status +:+ ": " +:+ detail
  end.

#[export] Instance runtime : Runtime := {|
  exn_str := show_exn;
  coerce_int := λ v, match v with VInt n => Some n | _ => None end;
  coerce_str := λ v, match v with VStr s => Some s | _ => None end;
  coerce_int_VInt := λ n, eq_refl;
  coerce_str_VStr := λ s, eq_refl |}.

Definition dict (l : list (string * value)) : value := VDict (list_to_map l).

Definition kommune_part : gmap string value :=
  list_to_map [("id", VInt 5); ("name", VStr "Kommune");
               ("slug", VStr "kommune"); ("type", VStr "generic_value")].

Definition module110 : value :=
  dict [("id", VInt 110); ("title", VStr "Arbejdstilsyn");
        ("parts", VList [VDict kommune_part])].

Definition raw_hit (n : Z) : value :=
  dict [("title", VStr ("Hit " +:+ pretty n));
        ("description", VStr "Afgørelse")].

Definition hits_page (count : Z) : value :=
  dict [("count", VInt count); ("items", VList (raw_hit <$> [1; 2; 3; 4; 5]))].

(** Every call succeeds; [count] hits are reported. *)
Definition platform_ok (count : Z) (_ : list request) (r : request) : reply :=
  match r with
  | GET_modules => Response 200 (Some (dict [("items", VList [module110])]))
  | GET_module _ => Response 200 (Some module110)
  | POST_step _ _ _ _ => Response 201 (Some (dict [("id", VInt 42)]))
  | GET_hits _ _ _ _ => Response 200 (Some (hits_page count))
  | DELETE_step _ => Response 204 None
  end.

(** The module does not exist. *)
Definition platform_no_module (history : list request) (r : request) : reply :=
  match r with
  | GET_module _ => Response 404 None
  | _ => platform_ok 5 history r
  end.

(** The platform is down for module details. *)
Definition platform_unavailable (history : list request) (r : request) : reply :=
  match r with
  | GET_module _ => Response 503 None
  | _ => platform_ok 5 history r
  end.

(** Steps cannot be created. *)
Definition platform_rejects_step (history : list request) (r : request) : reply :=
  match r with
  | POST_step _ _ _ _ => Response 400 None
  | _ => platform_ok 5 history r
  end.

(** The step is created, the hits cannot be fetched. *)
Definition platform_hits_down (history : list request) (r : request) : reply :=
  match r with
  | GET_hits _ _ _ _ => Response 500 None
  | _ => platform_ok 5 history r
  end.

(** Everything succeeds but the deletion of the step. *)
Definition platform_delete_fails (history : list request) (r : request) : reply :=
  match r with
  | DELETE_step _ => Response 404 None
  | _ => platform_ok 5 history r
  end.

Definition client (cache : option (list KM24Module)) : KM24Client :=
  {| api_key := "key"; _modules_cache := cache |}.

(** A configured service that has not talked to the platform yet. *)
Definition fresh : world :=
  {| km24_client := Some (client None); requests := []; log := [] |}.

Definition arbejdstilsyn : KM24Module :=
  {| m_id := 110; m_title := "Arbejdstilsyn"; m_emoji := "ðŸ“Š";
     m_description := None; m_parts := [] |}.

(** The same service with the module list already cached. *)
Definition warm : world :=
  {| km24_client := Some (client (Some [arbejdstilsyn]));
     requests := [GET_modules]; log := [LoadedModules 1] |}.

Definition kommune_aarhus : list (string * value) :=
  [("kommune", VStr "Aarhus")].

Definition branche_byggeri : list (string * value) :=
  [("branche", VStr "Byggeri")].

Definition temp_step : request :=
  POST_step "__temp_validation_110" 110 30
    [{| modulePartId := VInt 5; values := [VStr "Aarhus"] |}].

(** Module 110 as [get_module] returns it. *)
Definition module110_loaded : KM24Module :=
  {| m_id := 110; m_title := "Arbejdstilsyn"; m_emoji := "ðŸ“Š";
     m_description := None; m_parts := [kommune_part] |}.

Definition aarhus_parts : list StepPart :=
  [{| modulePartId := VInt 5; values := [VStr "Aarhus"] |}].

Definition hit (n : string) : Hit :=
  {| hit_title := "Hit " +:+ n; hit_date := None;
     hit_summary := Some "Afgørelse"; hit_url := None |}.

(** The first three of the five hits, projected. *)
Definition sample : list Hit := [hit "1"; hit "2"; hit "3"].

(** The states a run from [fresh] goes through, on a platform on which
    the module fetch, the step creation and the hit fetch succeed. *)
Definition loaded : world :=
  {| km24_client := Some (client None);
     requests := [GET_module 110];
     log := [LoadedModule 110 "Arbejdstilsyn" 1] |}.

Definition created : world :=
  {| km24_client := Some (client None);
     requests := [GET_module 110; temp_step];
     log := [LoadedModule 110 "Arbejdstilsyn" 1;
             CreatedStep (VInt 42) "__temp_validation_110"] |}.

Definition fetched : world :=
  {| km24_client := Some (client None);
     requests := [GET_module 110; temp_step;
                  GET_hits (VInt 42) 1 10 "-hitDatetime"];
     log := [LoadedModule 110 "Arbejdstilsyn" 1;
             CreatedStep (VInt 42) "__temp_validation_110";
             FetchedHits 5 (VInt 42)] |}.

(** ... and after the deletion, succeeded or failed with [e]. *)
Definition deleted : world :=
  {| km24_client := Some (client None);
     requests := requests fetched ++ [DELETE_step (VInt 42)];
     log := log fetched ++ [DeletedStep (VInt 42)] |}.

Definition not_deleted (e : exn) : world :=
  {| km24_client := Some (client None);
     requests := requests fetched ++ [DELETE_step (VInt 42)];
     log := log fetched ++ [ErrorDeletingStep (VInt 42) e] |}.

(** After a search with limit 10 that went through. *)
Definition searched : world :=
  {| km24_client := Some (client None);
     requests := requests deleted;
     log := SearchingHits 110 10 :: log deleted |}.

(** A mapping with a pair of each kind: a scalar and a list for known
    slugs, an unknown slug, an empty value. *)
Definition mixed_filters : list (string * value) :=
  [("branche", VStr "Byggeri");
   ("kommune", VList [VStr "Aarhus"; VStr "Odense"]);
   ("reaktion", VStr "");
   ("problem", VStr "Asbest")].

Definition problem_part : gmap string value :=
  list_to_map [("id", VInt 7); ("name", VStr "Problem");
               ("slug", VStr "problem"); ("type", VStr "generic_value")].

Definition reaktion_part : gmap string value :=
  list_to_map [("id", VInt 9); ("name", VStr "Reaktion");
               ("slug", VStr "reaktion"); ("type", VStr "generic_value")].

Definition three_parts : KM24Module :=
  {| m_id := 110; m_title := "Arbejdstilsyn"; m_emoji := "ðŸ“Š";
     m_description := None;
     m_parts := [kommune_part; problem_part; reaktion_part] |}.

End Scenario.

(* ===================================================================== *)
(** * The rest of the service: company search, endpoints, lifespan        *)
(* ===================================================================== *)

(** The code above is the validation pipeline.  What remains of
    [km24_client.py] is [close] and [search_company]; what remains of
    [main.py] is the lifespan hook and the endpoints [health_check],
    [validate_filters] and [get_modules].  ([generate_recipe] and its
    helper talk to the language model and pick the answer apart with
    regular expressions; they are not modelled.)

    This code has state and log lines of its own, kept beside the
    [world]: the global [anthropic_client], whether the HTTP client was
    closed, the company searches sent so far, and the lines logged. *)

Inductive app_event :=
| StartingBackend
| ModulesCached
| FailedToCacheModules (e : exn)
| ShuttingDown
| ValidatingFilters (module_id : Z) (filters : list (string * value))
| ErrorInValidateFilters (e : exn)
| ErrorGettingModules (e : exn)
| FoundCompanies (n : nat) (query : string)
| ErrorSearchingCompanies (e : exn).

(** The [Anthropic] client object, as far as this code looks at it. *)
Record Anthropic := {
  anthropic_api_key : string;
}.

Record app := {
  service : world;
  anthropic_client : option Anthropic;
  client_closed : bool;
  company_queries : list string;
  app_log : list app_event;
}.

Definition set_service (σ : world) (s : app) : app :=
  {| service := σ;
     anthropic_client := anthropic_client s;
     client_closed := client_closed s;
     company_queries := company_queries s;
     app_log := app_log s |}.

Definition add_company_query (query : string) (s : app) : app :=
  {| service := service s;
     anthropic_client := anthropic_client s;
     client_closed := client_closed s;
     company_queries := company_queries s ++ [query];
     app_log := app_log s |}.

Definition add_app_log (ev : app_event) (s : app) : app :=
  {| service := service s;
     anthropic_client := anthropic_client s;
     client_closed := client_closed s;
     company_queries := company_queries s;
     app_log := app_log s ++ [ev] |}.

Definition set_client_closed (s : app) : app :=
  {| service := service s;
     anthropic_client := anthropic_client s;
     client_closed := true;
     company_queries := company_queries s;
     app_log := app_log s |}.

Definition App (A : Type) : Type := app → result A * app.

#[global] Instance App_ret : MRet App := λ A x s, (inr x, s).
#[global] Instance App_bind : MBind App := λ A B f m s,
  match m s with
  | (inl e, s') => (inl e, s')
  | (inr x, s') => f x s'
  end.

Definition app_raise {A} (e : exn) : App A := λ s, (inl e, s).

Definition app_lift {A} (r : result A) : App A := λ s, (r, s).

(** Code of the pipeline, run on the [world] inside. *)
Definition in_service {A} (m : M A) : App A := λ s,
  let '(r, σ) := m (service s) in (r, set_service σ s).

Definition app_try_except {A} (body : App A) (handler : exn → App A) : App A :=
  λ s,
    match body s with
    | (inl e, s') => handler e s'
    | (inr x, s') => (inr x, s')
    end.

Definition app_logger (ev : app_event) : App unit := λ s,
  (inr tt, add_app_log ev s).

(** The global [km24_client], read. *)
Definition the_km24_client : App (option KM24Client) := λ s,
  (inr (km24_client (service s)), s).

Definition the_anthropic_client : App (option Anthropic) := λ s,
  (inr (anthropic_client s), s).

(** One module of the answer of [/api/modules]. *)
Record ModuleEntry := {
  entry_id : Z;
  entry_title : string;
  entry_emoji : string;
  entry_description : option string;
}.

(** The answer of [/health]. *)
Record Health := {
  health_status : string;
  health_anthropic_status : string;
  health_km24_status : string;
  health_km24_modules_count : nat;
}.

Section Application.
Context `{!Runtime}.

Variable platform : list request → request → reply.

(** What the platform replies to a company search, given the requests
    and the company searches it has received before. *)
Variable company_platform : list request → list string → string → reply.

(** [KM24Client.close]. *)
Definition close : App unit := λ s,
  match km24_client (service s) with
  | Some _ => (inr tt, set_client_closed s)
  | None => (inl AttributeError, s)
  end.

(** [await self.client.get(f"{KM24_BASE_URL}/companies/add/search",
    params={"q": query})]. *)
Definition company_http (query : string) : App (Z * option value) := λ s,
  match company_platform (requests (service s)) (company_queries s) query with
  | NoResponse => (inl ConnectError, add_company_query query s)
  | Response status body => (inr (status, body), add_company_query query s)
  end.

(** [KM24Client.search_company]. *)
Definition search_company (query : string) : App value :=
  in_service this;;
  app_try_except
    (response ← company_http query;
     in_service (raise_for_status response);;
     data ← in_service (json response);
     n ← app_lift (results ← get data "results" (VList []); len results);
     app_logger (FoundCompanies n query);;
     app_lift (get data "results" (VList [])))
    (λ e, app_logger (ErrorSearchingCompanies e);; app_raise e).

(** The lifespan hook up to its [yield]. *)
Definition lifespan_startup : App unit :=
  app_logger StartingBackend;;
  client ← the_km24_client;
  match client with
  | Some _ =>
      app_try_except
        (in_service (get_modules platform false);;
         app_logger ModulesCached)
        (λ e, app_logger (FailedToCacheModules e))
  | None => mret tt
  end.

(** The lifespan hook after its [yield]. *)
Definition lifespan_shutdown : App unit :=
  client ← the_km24_client;
  match client with
  | Some _ => close
  | None => mret tt
  end;;
  app_logger ShuttingDown.

(** The endpoint [/health]. *)
Definition health_check : App Health :=
  client ← the_km24_client;
  anthropic ← the_anthropic_client;
  let km24_status : string :=
    match client with Some _ => "ok" | None => "not configured" end in
  let anthropic_status : string :=
    match anthropic with Some _ => "ok" | None => "not configured" end in
  '(km24_status, km24_modules_count) ←
    match client with
    | Some _ =>
        app_try_except
          (modules ← in_service (get_modules platform false);
           mret (km24_status, length modules))
          (λ _, mret ("error", 0%nat))
    | None => mret (km24_status, 0%nat)
    end;
  mret {| health_status := "ok";
          health_anthropic_status := anthropic_status;
          health_km24_status := km24_status;
          health_km24_modules_count := km24_modules_count |}.

(** The endpoint [/api/monitoring/validate-filters]. *)
Definition validate_filters (module_id : Z) (filters : list (string * value))
  : App ValidationResult :=
  app_try_except
    (app_logger (ValidatingFilters module_id filters);;
     in_service (validate_filters_with_km24 platform module_id filters))
    (λ e,
       match e with
       | HTTPException _ _ => app_raise e
       | _ =>
           app_logger (ErrorInValidateFilters e);;
           app_raise (HTTPException 500 (exn_str e))
       end).

Definition module_entry (m : KM24Module) : ModuleEntry :=
  {| entry_id := m_id m; entry_title := m_title m;
     entry_emoji := m_emoji m; entry_description := m_description m |}.

(** The endpoint [/api/modules] (the function [get_modules] of
    [main.py]); its answer is the dict [{"modules": _}] around the list
    returned here. *)
Definition api_get_modules : App (list ModuleEntry) :=
  client ← the_km24_client;
  match client with
  | None => app_raise (HTTPException 500 "KM24 API not configured")
  | Some _ =>
      app_try_except
        (modules ← in_service (get_modules platform false);
         mret (module_entry <$> modules))
        (λ e,
           app_logger (ErrorGettingModules e);;
           app_raise (HTTPException 500 (exn_str e)))
  end.

End Application.

(* ===================================================================== *)
(** * More scenarios                                                      *)
(* ===================================================================== *)

(** Platforms and inputs at the edges: payloads with missing or odd
    fields, a platform that is down, company searches. *)
Module Edge.
Import Scenario.

(** Nothing answers. *)
Definition platform_down (_ : list request) (_ : request) : reply := NoResponse.

(** The platform has no modules. *)
Definition platform_no_modules (history : list request) (r : request) : reply :=
  match r with
  | GET_modules => Response 200 (Some (dict [("items", VList [])]))
  | _ => platform_ok 5 history r
  end.

(** The step is accepted, the answer does not say under which id. *)
Definition platform_step_without_id (history : list request) (r : request)
  : reply :=
  match r with
  | POST_step name _ _ _ => Response 201 (Some (dict [("name", VStr name)]))
  | _ => platform_ok 5 history r
  end.

(** As [platform_ok], with the given payload for the hits. *)
Definition platform_with_hits (hits : value) (history : list request)
    (r : request) : reply :=
  match r with
  | GET_hits _ _ _ _ => Response 200 (Some hits)
  | _ => platform_ok 5 history r
  end.

(** One hit, whose title is null. *)
Definition null_title_hits : value :=
  dict [("count", VInt 1);
        ("items", VList [dict [("title", VNone); ("url", VStr "u")]])].

(** Two hits, no count. *)
Definition uncounted_hits : value :=
  dict [("items", VList (raw_hit <$> [1; 2]))].

(** Two hits, and a count that is a text. *)
Definition text_count_hits : value :=
  dict [("count", VStr "mange"); ("items", VList (raw_hit <$> [1; 2]))].

(** The state of a run from [fresh] after the fetch of [n] hits. *)
Definition fetched_hits (n : nat) : world :=
  {| km24_client := Some (client None);
     requests := [GET_module 110; temp_step;
                  GET_hits (VInt 42) 1 10 "-hitDatetime"];
     log := [LoadedModule 110 "Arbejdstilsyn" 1;
             CreatedStep (VInt 42) "__temp_validation_110";
             FetchedHits n (VInt 42)] |}.

Definition deleted_hits (n : nat) : world :=
  {| km24_client := Some (client None);
     requests := requests (fetched_hits n) ++ [DELETE_step (VInt 42)];
     log := log (fetched_hits n) ++ [DeletedStep (VInt 42)] |}.

(** A second part with the slug [kommune]. *)
Definition kommune_part_again : gmap string value :=
  list_to_map [("id", VInt 8); ("name", VStr "Kommune (ny)");
               ("slug", VStr "kommune"); ("type", VStr "generic_value")].

Definition kommune_twice : KM24Module :=
  {| m_id := 110; m_title := "Arbejdstilsyn"; m_emoji := "ðŸ“Š";
     m_description := None;
     m_parts := [kommune_part; problem_part; kommune_part_again;
                 reaktion_part] |}.

(** A part that has an id and no slug. *)
Definition slugless_part : gmap string value :=
  list_to_map [("id", VInt 6); ("name", VStr "Uden slug")].

Definition module_with_slugless_part : value :=
  dict [("id", VInt 110); ("title", VStr "Arbejdstilsyn");
        ("parts", VList [VDict kommune_part; VDict slugless_part])].

Definition platform_slugless (history : list request) (r : request) : reply :=
  match r with
  | GET_module _ => Response 200 (Some module_with_slugless_part)
  | _ => platform_ok 5 history r
  end.

Definition slugless_loaded_module : KM24Module :=
  {| m_id := 110; m_title := "Arbejdstilsyn"; m_emoji := "ðŸ“Š";
     m_description := None; m_parts := [kommune_part; slugless_part] |}.

Definition slugless_loaded : world :=
  {| km24_client := Some (client None);
     requests := [GET_module 110];
     log := [LoadedModule 110 "Arbejdstilsyn" 2] |}.

(** A raw hit with a description and a summary that is null. *)
Definition null_summary_hit : gmap string value :=
  list_to_map [("title", VStr "Påbud"); ("summary", VNone);
               ("description", VStr "Afgørelse");
               ("hitDatetime", VStr "2024-11-05T10:00:00")].

(** The service with the module list cached but the empty list. *)
Definition emptied : world :=
  {| km24_client := Some (client (Some []));
     requests := [GET_modules]; log := [LoadedModules 0] |}.

(** Company searches. *)
Definition novo : value :=
  dict [("name", VStr "Novo Nordisk A/S"); ("cvr", VStr "24256790")].

Definition companies_ok (_ : list request) (_ : list string) (query : string)
  : reply :=
  Response 200 (Some (dict [("results", VList [novo])])).

Definition companies_null (_ : list request) (_ : list string)
    (query : string) : reply :=
  Response 200 (Some (dict [("results", VNone)])).

Definition app_of (σ : world) : app :=
  {| service := σ; anthropic_client := None; client_closed := false;
     company_queries := []; app_log := [] |}.

End Edge.

(* ===================================================================== *)
(** * Properties                                                          *)
(* ===================================================================== *)

Ltac unfold_monad :=
  unfold mbind, mret, M_bind, M_ret, result_bind, result_ret, try_except,
    raise, lift, logger, this, ok, err in *.

Ltac unfold_http :=
  unfold http, raise_for_status, json, module_list, module_reply, step_reply,
    hits_reply, decode_json, check_status, store_modules_cache.

Section Gateway_facts.
Context `{!Runtime} (platform : list request → request → reply).

Lemma get_module_eq module_id σ self :
  km24_client σ = Some self →
  get_module platform module_id σ =
    let σ1 := add_request (GET_module module_id) σ in
    match module_reply (platform (requests σ) (GET_module module_id)) with
    | inl e => (inl e, add_log (ErrorFetchingModule module_id e) σ1)
    | inr m => (inr m, add_log (LoadedModule module_id (m_title m)
                                  (length (m_parts m))) σ1)
    end.
Proof.
  intros Hself. unfold get_module. unfold_http. unfold_monad.
  rewrite Hself. simpl.
  destruct (platform _ _) as [|status [data|]]; simpl; try done;
    destruct ((200 <=? status) && (status <=? 299)); simpl; try done.
  by destruct (module_detail data).
Qed.

Lemma create_step_eq name module_id parts lookback σ self :
  km24_client σ = Some self →
  create_step platform name module_id parts lookback σ =
    let r := POST_step name module_id lookback parts in
    match step_reply (platform (requests σ) r) with
    | inl e => (inl e, add_log (ErrorCreatingStep e) (add_request r σ))
    | inr (step, step_id) =>
        (inr step, add_log (CreatedStep step_id name) (add_request r σ))
    end.
Proof.
  intros Hself. unfold create_step. unfold_http. unfold_monad.
  rewrite Hself. simpl.
  destruct (platform _ _) as [|status [data|]]; simpl; try done;
    destruct ((200 <=? status) && (status <=? 299)); simpl; try done.
  by destruct (getitem data "id").
Qed.

Lemma get_step_hits_eq step_id page page_size ordering σ self :
  km24_client σ = Some self →
  get_step_hits platform step_id page page_size ordering σ =
    let r := GET_hits step_id page page_size ordering in
    match hits_reply (platform (requests σ) r) with
    | inl e => (inl e, add_log (ErrorFetchingHits step_id e) (add_request r σ))
    | inr (hits, n) =>
        (inr hits, add_log (FetchedHits n step_id) (add_request r σ))
    end.
Proof.
  intros Hself. unfold get_step_hits. unfold_http. unfold_monad.
  rewrite Hself. simpl.
  destruct (platform _ _) as [|status [data|]]; simpl; try done;
    destruct ((200 <=? status) && (status <=? 299)); simpl; try done.
  destruct (get data "items" (VList [])) as [|items]; simpl; try done.
  by destruct (len items).
Qed.

Lemma delete_step_eq step_id σ self :
  km24_client σ = Some self →
  delete_step platform step_id σ =
    let r := DELETE_step step_id in
    match check_status (platform (requests σ) r) with
    | inl e => (inl e, add_log (ErrorDeletingStep step_id e) (add_request r σ))
    | inr _ => (inr (), add_log (DeletedStep step_id) (add_request r σ))
    end.
Proof.
  intros Hself. unfold delete_step. unfold_http. unfold_monad.
  rewrite Hself. simpl.
  destruct (platform _ _) as [|status body]; simpl; try done;
    destruct ((200 <=? status) && (status <=? 299)); simpl; try done.
Qed.

Lemma get_modules_eq force_refresh σ self :
  km24_client σ = Some self →
  get_modules platform force_refresh σ =
    match _modules_cache self, force_refresh with
    | Some (m :: ms), false => (inr (m :: ms), σ)
    | _, _ =>
        let σ1 := add_request GET_modules σ in
        match module_list (platform (requests σ) GET_modules) with
        | inl e => (inl e, add_log (ErrorFetchingModules e) σ1)
        | inr modules =>
            (inr modules,
             add_log (LoadedModules (length modules))
               (set_modules_cache (Some modules) σ1))
        end
    end.
Proof.
  intros Hself.
  assert (
    try_except
        (response ← http platform GET_modules;
         raise_for_status response;;
         data ← json response;
         items ← lift (get data "items" (VList []) ≫= iterate);
         modules ← lift (mapM module_summary items);
         store_modules_cache modules;;
         logger (LoadedModules (length modules));;
         mret modules)
        (λ e, logger (ErrorFetchingModules e);; raise e) σ =
    match module_list (platform (requests σ) GET_modules) with
        | inl e => (inl e, add_log (ErrorFetchingModules e) (add_request GET_modules σ))
        | inr modules =>
            (inr modules,
             add_log (LoadedModules (length modules))
               (set_modules_cache (Some modules) (add_request GET_modules σ)))
        end) as Hfetch.
  { unfold_http. unfold_monad. simpl.
    destruct (platform _ _) as [|status [data|]]; simpl; try done;
      destruct ((200 <=? status) && (status <=? 299)); simpl; try done.
    destruct (get data "items" (VList [])) as [|items]; simpl; try done.
    destruct (iterate items) as [|elems]; simpl; try done.
    by destruct (mapM module_summary elems). }
  unfold get_modules. unfold mbind at 1, M_bind at 1, this. rewrite Hself.
  destruct (_modules_cache self) as [[|m ms]|], force_refresh;
    try done; by rewrite Hfetch.
Qed.


(** A method called without a client raises before it does anything. *)
Lemma get_module_None module_id σ :
  km24_client σ = None →
  get_module platform module_id σ = (inl AttributeError, σ).
Proof. intros Hnone. unfold get_module. unfold_monad. by rewrite Hnone. Qed.

Lemma create_step_None name module_id parts lookback σ :
  km24_client σ = None →
  create_step platform name module_id parts lookback σ = (inl AttributeError, σ).
Proof. intros Hnone. unfold create_step. unfold_monad. by rewrite Hnone. Qed.

Lemma get_step_hits_None step_id page page_size ordering σ :
  km24_client σ = None →
  get_step_hits platform step_id page page_size ordering σ
  = (inl AttributeError, σ).
Proof. intros Hnone. unfold get_step_hits. unfold_monad. by rewrite Hnone. Qed.

Lemma delete_step_None step_id σ :
  km24_client σ = None →
  delete_step platform step_id σ = (inl AttributeError, σ).
Proof. intros Hnone. unfold delete_step. unfold_monad. by rewrite Hnone. Qed.

(** ** Frame: no method but [get_modules] touches the client *)

Lemma get_module_client module_id σ :
  km24_client (get_module platform module_id σ).2 = km24_client σ.
Proof.
  destruct (km24_client σ) as [self|] eqn:Hself.
  - rewrite (get_module_eq _ _ self) by done. simpl. by destruct (module_reply _).
  - by rewrite get_module_None.
Qed.

Lemma create_step_client name module_id parts lookback σ :
  km24_client (create_step platform name module_id parts lookback σ).2
  = km24_client σ.
Proof.
  destruct (km24_client σ) as [self|] eqn:Hself.
  - rewrite (create_step_eq _ _ _ _ _ self) by done. simpl.
    by destruct (step_reply _) as [|[]].
  - by rewrite create_step_None.
Qed.

Lemma get_step_hits_client step_id page page_size ordering σ :
  km24_client (get_step_hits platform step_id page page_size ordering σ).2
  = km24_client σ.
Proof.
  destruct (km24_client σ) as [self|] eqn:Hself.
  - rewrite (get_step_hits_eq _ _ _ _ _ self) by done. simpl.
    by destruct (hits_reply _) as [|[]].
  - by rewrite get_step_hits_None.
Qed.

Lemma delete_step_client step_id σ :
  km24_client (delete_step platform step_id σ).2 = km24_client σ.
Proof.
  destruct (km24_client σ) as [self|] eqn:Hself.
  - rewrite (delete_step_eq _ _ self) by done. simpl. by destruct (check_status _).
  - by rewrite delete_step_None.
Qed.

(** ** Each call of a method sends exactly one request *)

Lemma get_module_requests module_id σ :
  is_Some (km24_client σ) →
  requests (get_module platform module_id σ).2
  = requests σ ++ [GET_module module_id].
Proof.
  intros [self Hself]. rewrite (get_module_eq _ _ self) by done. simpl.
  by destruct (module_reply _).
Qed.

Lemma create_step_requests name module_id parts lookback σ :
  is_Some (km24_client σ) →
  requests (create_step platform name module_id parts lookback σ).2
  = requests σ ++ [POST_step name module_id lookback parts].
Proof.
  intros [self Hself]. rewrite (create_step_eq _ _ _ _ _ self) by done. simpl.
  by destruct (step_reply _) as [|[]].
Qed.

Lemma get_step_hits_requests step_id page page_size ordering σ :
  is_Some (km24_client σ) →
  requests (get_step_hits platform step_id page page_size ordering σ).2
  = requests σ ++ [GET_hits step_id page page_size ordering].
Proof.
  intros [self Hself]. rewrite (get_step_hits_eq _ _ _ _ _ self) by done. simpl.
  by destruct (hits_reply _) as [|[]].
Qed.

Lemma delete_step_requests step_id σ :
  is_Some (km24_client σ) →
  requests (delete_step platform step_id σ).2
  = requests σ ++ [DELETE_step step_id].
Proof.
  intros [self Hself]. rewrite (delete_step_eq _ _ self) by done. simpl.
  by destruct (check_status _).
Qed.

(** A method that returns was called on a client. *)
Lemma get_module_ok_client module_id σ m σ' :
  get_module platform module_id σ = (inr m, σ') → is_Some (km24_client σ).
Proof.
  destruct (km24_client σ) eqn:Hc; [by eauto|].
  by rewrite get_module_None.
Qed.

(** A step that [create_step] returns has an id. *)
Lemma create_step_ok_id name module_id parts lookback σ step σ' :
  create_step platform name module_id parts lookback σ = (inr step, σ') →
  ∃ step_id, getitem step "id" = inr step_id.
Proof.
  destruct (km24_client σ) as [self|] eqn:Hself.
  - rewrite (create_step_eq _ _ _ _ _ self) by done. simpl.
    unfold step_reply. unfold_monad.
    destruct (decode_json _) as [|data]; simpl; [done|].
    destruct (getitem data "id") eqn:Hid; simpl; [done|].
    intros [= <- _]. eauto.
  - by rewrite create_step_None.
Qed.

End Gateway_facts.

Section Validation_facts.
Context `{!Runtime} (platform : list request → request → reply).

Lemma on_validation_error_eq e σ :
  on_validation_error e σ
  = (inl (HTTPException 500 ("Failed to validate filters: " +:+ exn_str e)),
     add_log (ErrorValidatingFilters e) σ).
Proof. reflexivity. Qed.

Lemma no_filters_result_eq :
  no_filters_result
  = inr {| is_valid := false; sample_hits := []; hit_count := 0;
           warnings := ["Ingen filtre valgt"];
           suggestions :=
             ["Tilføj mindst ét filter for at indsnævre søgningen"] |}.
Proof.
  unfold no_filters_result, ValidationResult_new. simpl.
  by rewrite coerce_int_VInt.
Qed.

(** [validate_filters_with_km24], stage by stage. *)
Lemma validate_unfold module_id filters σ :
  is_Some (km24_client σ) →
  validate_filters_with_km24 platform module_id filters σ =
    match get_module platform module_id σ with
    | (inl e, σ1) => on_validation_error e σ1
    | (inr module, σ1) =>
        match translate module filters with
        | inl e => on_validation_error e σ1
        | inr [] =>
            match no_filters_result with
            | inl e => on_validation_error e σ1
            | inr verdict => (inr verdict, σ1)
            end
        | inr (part :: parts) =>
            match validate_with_step platform module_id (part :: parts) σ1 with
            | (inl e, σ2) => on_validation_error e σ2
            | (inr verdict, σ2) => (inr verdict, σ2)
            end
        end
    end.
Proof.
  intros [self Hself]. unfold validate_filters_with_km24. rewrite Hself.
  unfold try_except, mbind, M_bind, lift.
  destruct (get_module platform module_id σ) as [[e|module] σ1]; [done|].
  destruct (translate module filters) as [e|[|part parts]]; try done.
Qed.

(** The verdict computed after the deletion of the step. *)
Lemma validate_with_step_unfold module_id parts σ1 :
  validate_with_step platform module_id parts σ1 =
    match create_step platform (step_name module_id) module_id parts 30 σ1 with
    | (inl e, σ2) => (inl e, σ2)
    | (inr step, σ2) =>
        match getitem step "id" with
        | inl e => (inl e, σ2)
        | inr step_id =>
            match get_step_hits platform step_id 1 10 "-hitDatetime" σ2 with
            | (inl e, σ3) => (inl e, σ3)
            | (inr hits_data, σ3) =>
                match project_hits hits_data with
                | inl e => (inl e, σ3)
                | inr sample =>
                    match get hits_data "count" (VInt 0) with
                    | inl e => (inl e, σ3)
                    | inr count =>
                        match delete_step platform step_id σ3 with
                        | (inl e, σ4) => (inl e, σ4)
                        | (inr _, σ4) =>
                            (ws ← classify count;
                             is_valid ← py_gt_int count 0;
                             ValidationResult_new is_valid sample count
                               ws.1 ws.2,
                             σ4)
                        end
                    end
                end
            end
        end
    end.
Proof.
  unfold validate_with_step, mbind, M_bind, lift.
  destruct (create_step _ _ _ _ _ _) as [[e|step] σ2]; [done|].
  destruct (getitem step "id") as [e|step_id]; [done|].
  destruct (get_step_hits _ _ _ _ _ _) as [[e|hits_data] σ3]; [done|].
  destruct (project_hits hits_data) as [e|sample]; [done|].
  destruct (get hits_data "count" (VInt 0)) as [e|count]; [done|].
  destruct (delete_step _ _ _) as [[e|[]] σ4]; [done|].
  unfold result_bind.
  destruct (classify count) as [e|[ws ss]]; [done|]. simpl.
  by destruct (py_gt_int count 0).
Qed.


(** ** Where a run stands *)

Lemma step_created_state module_id filters σ parts step_id σ2 :
  step_created platform module_id filters σ parts step_id σ2 →
  is_Some (km24_client σ) ∧
  km24_client σ2 = km24_client σ ∧
  requests σ2 = requests σ ++
    [GET_module module_id; POST_step (step_name module_id) module_id 30 parts].
Proof.
  intros (module & step & σ1 & Hmod & _ & _ & Hstep & _).
  pose proof (get_module_ok_client _ _ _ _ _ Hmod) as Hc.
  pose proof (get_module_client platform module_id σ) as Hc1.
  pose proof (get_module_requests platform module_id σ Hc) as Hr1.
  rewrite Hmod in Hc1, Hr1. simpl in *.
  pose proof (create_step_client platform (step_name module_id) module_id
                parts 30 σ1) as Hc2.
  pose proof (create_step_requests platform (step_name module_id) module_id
                parts 30 σ1) as Hr2.
  rewrite Hstep in Hc2, Hr2. simpl in *.
  split; [done|]. split; [congruence|].
  rewrite Hr2, ?Hr1, <-?(assoc_L (++)); [done|]. by rewrite Hc1.
Qed.

Lemma hits_fetched_state module_id filters σ step_id hits_data σ3 :
  hits_fetched platform module_id filters σ step_id hits_data σ3 →
  is_Some (km24_client σ) ∧
  km24_client σ3 = km24_client σ ∧
  ∃ parts,
    requests σ3 = requests σ ++
      [GET_module module_id;
       POST_step (step_name module_id) module_id 30 parts;
       GET_hits step_id 1 10 "-hitDatetime"].
Proof.
  intros (parts & σ2 & Hcreated & Hhits).
  destruct (step_created_state _ _ _ _ _ _ Hcreated) as (Hc & Hc2 & Hr2).
  pose proof (get_step_hits_client platform step_id 1 10 "-hitDatetime" σ2)
    as Hc3.
  pose proof (get_step_hits_requests platform step_id 1 10 "-hitDatetime" σ2)
    as Hr3.
  rewrite Hhits in Hc3, Hr3. simpl in *.
  split; [done|]. split; [congruence|]. exists parts.
  rewrite Hr3, Hr2, <-?(assoc_L (++)); [done|]. by rewrite Hc2.
Qed.

(** What is left of a run once the hits are fetched. *)
Lemma validate_after_hits module_id filters σ step_id hits_data σ3 :
  hits_fetched platform module_id filters σ step_id hits_data σ3 →
  validate_filters_with_km24 platform module_id filters σ =
    match project_hits hits_data with
    | inl e => on_validation_error e σ3
    | inr sample =>
        match get hits_data "count" (VInt 0) with
        | inl e => on_validation_error e σ3
        | inr count =>
            match delete_step platform step_id σ3 with
            | (inl e, σ4) => on_validation_error e σ4
            | (inr _, σ4) =>
                match (ws ← classify count;
                       is_valid ← py_gt_int count 0;
                       ValidationResult_new is_valid sample count
                         ws.1 ws.2) with
                | inl e => on_validation_error e σ4
                | inr verdict => (inr verdict, σ4)
                end
            end
        end
    end.
Proof.
  intros Hfetched.
  destruct (hits_fetched_state _ _ _ _ _ _ Hfetched) as (Hc & _).
  destruct Hfetched as
    (parts & σ2 & (module & step & σ1 & Hmod & Htr & Hne & Hstep & Hid) & Hhits).
  rewrite validate_unfold, Hmod, Htr by done.
  destruct parts as [|part parts]; [done|].
  rewrite validate_with_step_unfold, Hstep, Hid, Hhits.
  destruct (project_hits hits_data) as [e|sample]; [done|].
  destruct (get hits_data "count" (VInt 0)) as [e|count]; [done|].
  by destruct (delete_step _ _ _) as [[e|[]] σ4].
Qed.

End Validation_facts.

Section Validation_properties.
Context `{!Runtime} (platform : list request → request → reply).

(** C2 (as amended).  When the deletion of the step fails with [e],
    the gateway logs the failure and raises it again, and
    [validate_filters_with_km24] raises
    [HTTPException(500, "Failed to validate filters: " + str(e))] to
    its caller in place of the verdict it had computed. *)
Theorem cleanup_failure_replaces_verdict
    module_id filters σ step_id sample count σ3 e σ4 :
  ready_to_clean_up platform module_id filters σ step_id sample count σ3 →
  delete_step platform step_id σ3 = (inl e, σ4) →
  validate_filters_with_km24 platform module_id filters σ
  = (inl (HTTPException 500 ("Failed to validate filters: " +:+ exn_str e)),
     add_log (ErrorValidatingFilters e) σ4) ∧
  log σ4 = log σ3 ++ [ErrorDeletingStep step_id e] ∧
  requests σ4 = requests σ3 ++ [DELETE_step step_id].
Proof.
  intros (hits_data & Hfetched & Hsample & Hcount) Hdelete.
  split.
  - by rewrite (validate_after_hits _ _ _ _ _ _ _ Hfetched),
      Hsample, Hcount, Hdelete.
  - destruct (hits_fetched_state _ _ _ _ _ _ _ Hfetched) as (Hc & Hc3 & _).
    rewrite <-Hc3 in Hc. destruct Hc as [self Hself].
    rewrite (delete_step_eq _ _ _ self) in Hdelete by done. simpl in Hdelete.
    destruct (check_status _); by simplify_eq.
Qed.

(** C3 (as amended).  A failure [e] of the module fetch, of the
    translation, of the step creation or of the hit fetch reaches the
    caller of [validate_filters_with_km24] as
    [HTTPException(500, "Failed to validate filters: " + str(e))],
    whatever kind of failure [e] is; nothing is sent to the platform
    after the failing call, and each call before it was sent once. *)
Theorem pipeline_failure_is_wrapped module_id filters σ e σf sent :
  is_Some (km24_client σ) →
  pipeline_failure platform module_id filters σ e σf sent →
  validate_filters_with_km24 platform module_id filters σ
  = (inl (HTTPException 500 ("Failed to validate filters: " +:+ exn_str e)),
     add_log (ErrorValidatingFilters e) σf) ∧
  requests σf = requests σ ++ sent.
Proof.
  intros Hc Hfail. rewrite validate_unfold by done.
  destruct Hfail as
    [e σ1 Hmod | module e σ1 Hmod Htr
    | module parts e σ1 σ2 Hmod Htr Hne Hstep
    | parts step_id e σ2 σ3 Hcreated Hhits].
  - rewrite Hmod. split; [done|].
    pose proof (get_module_requests platform module_id σ Hc) as Hr.
    by rewrite Hmod in Hr.
  - rewrite Hmod, Htr. split; [done|].
    pose proof (get_module_requests platform module_id σ Hc) as Hr.
    by rewrite Hmod in Hr.
  - rewrite Hmod, Htr. destruct parts as [|part parts]; [done|].
    rewrite validate_with_step_unfold, Hstep. split; [done|].
    pose proof (get_module_requests platform module_id σ Hc) as Hr1.
    pose proof (get_module_client platform module_id σ) as Hc1.
    rewrite Hmod in Hr1, Hc1. simpl in *.
    pose proof (create_step_requests platform (step_name module_id)
                  module_id (part :: parts) 30 σ1) as Hr2.
    rewrite Hstep in Hr2. simpl in Hr2.
    rewrite Hr2, Hr1, <-?(assoc_L (++)); [done|]. by rewrite Hc1.
  - destruct (step_created_state _ _ _ _ _ _ _ Hcreated) as (_ & Hc2 & Hr2).
    destruct Hcreated as (module & step & σ1 & Hmod & Htr & Hne & Hstep & Hid).
    rewrite Hmod, Htr. destruct parts as [|part parts]; [done|].
    rewrite validate_with_step_unfold, Hstep, Hid, Hhits. split; [done|].
    pose proof (get_step_hits_requests platform step_id 1 10
                  "-hitDatetime" σ2) as Hr3.
    rewrite Hhits in Hr3. simpl in Hr3.
    rewrite Hr3, Hr2, <-?(assoc_L (++)); [done|]. by rewrite Hc2.
Qed.

(** C4.  When translation yields no part, [validate_filters_with_km24]
    returns at once: not valid, no hits, one warning, one suggestion;
    the module fetch is the only request of the run, so no step is
    created, queried or deleted. *)
Theorem no_filters_short_circuit module_id filters σ module σ1 :
  get_module platform module_id σ = (inr module, σ1) →
  translate module filters = inr [] →
  validate_filters_with_km24 platform module_id filters σ
  = (inr {| is_valid := false; sample_hits := []; hit_count := 0;
            warnings := ["Ingen filtre valgt"];
            suggestions :=
              ["Tilføj mindst ét filter for at indsnævre søgningen"] |},
     σ1) ∧
  requests σ1 = requests σ ++ [GET_module module_id].
Proof.
  intros Hmod Htr.
  pose proof (get_module_ok_client _ _ _ _ _ Hmod) as Hc.
  split.
  - by rewrite validate_unfold, Hmod, Htr, no_filters_result_eq.
  - pose proof (get_module_requests platform module_id σ Hc) as Hr.
    by rewrite Hmod in Hr.
Qed.

(** C5.  With a fetched hit count [n], and the step deleted, the
    verdict has [hit_count = n]; it is valid exactly when [n > 0]; at
    [n = 0] it carries the "no hits" warning and its suggestion, from
    1 to 100 nothing, from 101 on the "high hit rate" warning, which
    contains [n], and its suggestion. *)
Theorem verdict_classification module_id filters σ step_id sample n σ3 σ4 :
  ready_to_clean_up platform module_id filters σ step_id sample (VInt n) σ3 →
  delete_step platform step_id σ3 = (inr (), σ4) →
  ∃ verdict,
    validate_filters_with_km24 platform module_id filters σ
    = (inr verdict, σ4) ∧
    hit_count verdict = n ∧
    sample_hits verdict = sample ∧
    (is_valid verdict = true ↔ 0 < n) ∧
    (n = 0 →
       warnings verdict = ["Ingen hits fundet med disse filtre"] ∧
       suggestions verdict =
         ["Prøv at udvide søgningen ved at fjerne nogle filtre"]) ∧
    (1 ≤ n ≤ 100 → warnings verdict = [] ∧ suggestions verdict = []) ∧
    (101 ≤ n →
       warnings verdict = ["Meget høj hitrate (" +:+ pretty n +:+ " hits)"] ∧
       suggestions verdict =
         ["Overvej at indsnævre med flere specifikke filtre"]).
Proof.
  intros (hits_data & Hfetched & Hsample & Hcount) Hdelete.
  rewrite (validate_after_hits _ _ _ _ _ _ _ Hfetched),
    Hsample, Hcount, Hdelete.
  unfold classify, py_eq_int, py_gt_int, ValidationResult_new. simpl.
  rewrite coerce_int_VInt.
  assert (∀ verdict', is_valid verdict' = (0 <? n) →
            is_valid verdict' = true ↔ 0 < n) as Hvalid.
  { intros verdict' ->. apply Z.ltb_lt. }
  destruct (n =? 0) eqn:Hzero; simpl.
  - apply Z.eqb_eq in Hzero as ->. eexists. split; [done|]. simpl.
    split_and!; first [done | lia | by apply Hvalid].
  - apply Z.eqb_neq in Hzero.
    destruct (100 <? n) eqn:Hhigh; simpl.
    + apply Z.ltb_lt in Hhigh. eexists. split; [done|]. simpl.
      split_and!; first [done | lia | by apply Hvalid].
    + apply Z.ltb_ge in Hhigh. eexists. split; [done|]. simpl.
      split_and!; first [done | lia | by apply Hvalid].
Qed.

End Validation_properties.

Section Translation_properties.

Lemma convert_filters_acc part_map filters parts :
  convert_filters part_map filters parts
  = parts ++ convert_filters part_map filters [].
Proof.
  revert parts. induction filters as [|[name v] filters IH]; intros parts.
  - simpl. by rewrite app_nil_r.
  - simpl. destruct (truthy v), (part_map !! name) as [part_id|];
      try apply IH.
    rewrite IH, (IH [_]). by rewrite <-(assoc_L (++)).
Qed.

(** The lookup that the comprehension builds over well-formed parts:
    it has an entry for a slug exactly when a part has that slug, and
    the entry is the id of such a part. *)
Lemma build_part_map_from_spec parts acc :
  Forall well_formed_part parts →
  ∃ part_map,
    build_part_map_from acc parts = inr part_map ∧
    (∀ slug, is_Some (part_map !! slug) ↔
               is_Some (acc !! slug) ∨ slug ∈ omap slug_of parts) ∧
    (∀ slug id, part_map !! slug = Some id →
                acc !! slug = Some id ∨
                ∃ p, p ∈ parts ∧ p !! "slug" = Some (VStr slug) ∧
                     p !! "id" = Some id).
Proof.
  intros Hwf. revert acc.
  induction Hwf as [|p parts [[slug Hslug] [id Hid]] _ IH]; intros acc.
  - exists acc. simpl. split; [done|]. split.
    + intros s. rewrite elem_of_nil. tauto.
    + intros s i Hs. by left.
  - destruct (IH (<[slug := id]> acc)) as (part_map & Hbuild & Hdom & Hval).
    exists part_map. split; [|split].
    + simpl. unfold part_map_add, dict_getitem.
      by rewrite Hslug, Hid.
    + intros s. rewrite Hdom. simpl. unfold slug_of at 2. rewrite Hslug.
      rewrite elem_of_cons, lookup_insert_is_Some.
      destruct (decide (slug = s)); intuition (subst; eauto).
    + intros s i Hs. destruct (Hval s i Hs) as [Hacc|(q & Hq & Hqs & Hqi)].
      * apply lookup_insert_Some in Hacc as [[<- <-]|[_ Hacc]]; [|by left].
        right. exists p. by rewrite elem_of_cons; eauto.
      * right. exists q. by rewrite elem_of_cons; eauto.
Qed.

Lemma build_part_map_spec module :
  Forall well_formed_part (m_parts module) →
  ∃ part_map,
    build_part_map (m_parts module) = inr part_map ∧
    (∀ slug, is_Some (part_map !! slug) ↔ slug ∈ slugs module) ∧
    (∀ slug id, part_map !! slug = Some id →
                ∃ p, p ∈ m_parts module ∧ p !! "slug" = Some (VStr slug) ∧
                     p !! "id" = Some id).
Proof.
  intros Hwf.
  destruct (build_part_map_from_spec _ ∅ Hwf) as (part_map & Hbuild & Hdom & Hval).
  exists part_map. split; [done|]. split.
  - intros s. rewrite Hdom, lookup_empty. unfold slugs.
    rewrite elem_of_list_to_set. split; [|by right].
    by intros [[? [=]]|].
  - intros s i Hs. destruct (Hval s i Hs) as [Hempty|]; [|done].
    by rewrite lookup_empty in Hempty.
Qed.

Lemma as_values_list l : as_values (VList l) = l.
Proof. done. Qed.

Lemma as_values_scalar v : (∀ l, v ≠ VList l) → as_values v = [v].
Proof. intros Hv. destruct v; try done. by destruct (Hv l). Qed.

Lemma convert_filters_emitted module part_map filters :
  (∀ slug, is_Some (part_map !! slug) ↔ slug ∈ slugs module) →
  (∀ slug id, part_map !! slug = Some id →
              ∃ p, p ∈ m_parts module ∧ p !! "slug" = Some (VStr slug) ∧
                   p !! "id" = Some id) →
  Forall2 (emitted module) (filter (survives module) filters)
    (convert_filters part_map filters []).
Proof.
  intros Hdom Hval.
  induction filters as [|[name v] filters IH]; [by constructor|].
  simpl. destruct (truthy v) eqn:Hv.
  - destruct (part_map !! name) as [part_id|] eqn:Hname.
    + rewrite filter_cons_True.
      2:{ split; simpl; [by rewrite Hv|]. apply Hdom. by rewrite Hname. }
      rewrite convert_filters_acc. simpl. constructor; [|done].
      split; [by apply Hval|]. simpl. split.
      * by intros l ->.
      * apply as_values_scalar.
    + rewrite filter_cons_False; [done|].
      intros [_ Hin]. simpl in Hin. apply Hdom in Hin.
      rewrite Hname in Hin. by destruct Hin.
  - rewrite filter_cons_False.
    + by destruct (part_map !! name).
    + intros [Ht _]. simpl in Ht. by rewrite Hv in Ht.
Qed.

Lemma surviving_bound module (filters : list (string * value)) :
  NoDup filters.*1 →
  (length (filter (survives module) filters)
   ≤ size (list_to_set filters.*1 ∩ slugs module))%nat.
Proof.
  intros Hnodup.
  set (kept := filter (survives module) filters).
  assert (NoDup kept.*1) as Hkept.
  { eapply sublist_NoDup; [done|]. apply fmap_sublist, sublist_filter. }
  rewrite <-(length_fmap fst kept),
    <-(size_list_to_set (C:=gset string)) by done.
  apply subseteq_size. intros slug.
  rewrite elem_of_list_to_set, elem_of_intersection, elem_of_list_to_set.
  intros ([name v] & -> & Hin)%list_elem_of_fmap.
  apply list_elem_of_filter in Hin as [[_ Hslug] Hin]. split; [|done].
  apply list_elem_of_fmap. by exists (name, v).
Qed.

(** C6.  Over a module whose parts are well formed, translation does
    not fail.  It emits one part per pair of the mapping whose value is
    truthy and whose slug is a slug of the module, in the order of the
    mapping, and nothing for the other pairs; the part has the id of a
    part with that slug, a list value as it is, any other value as a
    one-element list.  So its output is no longer than the number of
    slugs that the mapping and the module share. *)
Theorem translate_spec module (filters : list (string * value)) :
  Forall well_formed_part (m_parts module) →
  NoDup filters.*1 →
  ∃ parts,
    translate module filters = inr parts ∧
    Forall2 (emitted module) (filter (survives module) filters) parts ∧
    (length parts ≤ size (list_to_set filters.*1 ∩ slugs module))%nat.
Proof.
  intros Hwf Hnodup.
  destruct (build_part_map_spec module Hwf) as (part_map & Hbuild & Hdom & Hval).
  pose proof (convert_filters_emitted module part_map filters Hdom Hval)
    as Hemitted.
  exists (convert_filters part_map filters []). split; [|split].
  - unfold translate. by rewrite Hbuild.
  - done.
  - rewrite <-(Forall2_length _ _ _ Hemitted). by apply surviving_bound.
Qed.

End Translation_properties.

Section Projection_properties.
Context `{!Runtime} (platform : list request → request → reply).

Lemma mapM_result_Forall2 {A B} (f : A → result B) l k :
  mapM f l = inr k → Forall2 (λ x y, f x = inr y) l k.
Proof.
  revert k. induction l as [|x l IH]; intros k; simpl.
  - intros [= <-]. constructor.
  - unfold mbind, result_bind, mret, result_ret.
    destruct (f x) as [e|y] eqn:Hx; [done|].
    destruct (mapM f l) as [e|k'] eqn:Hl; [done|].
    intros [= <-]. constructor; [done|]. by apply IH.
Qed.

Lemma validated_ok {A} (o : option A) x : validated o = inr x → o = Some x.
Proof. destruct o; simpl; unfold ok, err; congruence. Qed.

Lemma project_hit_projects raw hit :
  project_hit raw = inr hit → projects raw hit.
Proof.
  destruct raw as [| | | | |d]; try done.
  unfold project_hit, get, Hit_new. unfold mbind at 1 2 3 4 5, result_bind, ok.
  intros Hhit%validated_ok. exists d. split; [done|].
  destruct (coerce_str (default (VStr "Untitled") (d !! "title")))
    as [title|] eqn:Htitle; simpl in Hhit; [|done].
  destruct (coerce_opt_str (default VNone (d !! "hitDatetime")))
    as [date|]; simpl in Hhit; [|done].
  destruct (coerce_opt_str
              (default (default (VStr "") (d !! "description"))
                 (d !! "summary")))
    as [summary|] eqn:Hsummary; simpl in Hhit; [|done].
  destruct (coerce_opt_str (default VNone (d !! "url")))
    as [url|]; simpl in Hhit; [|done].
  injection Hhit as <-. simpl.
  split_and!.
  - intros Hnone. rewrite Hnone in Htitle. simpl in Htitle.
    rewrite coerce_str_VStr in Htitle. congruence.
  - intros t Ht. rewrite Ht in Htitle. simpl in Htitle.
    rewrite coerce_str_VStr in Htitle. congruence.
  - intros s Hs. rewrite Hs in Hsummary. simpl in Hsummary.
    rewrite coerce_str_VStr in Hsummary. simpl in Hsummary. congruence.
  - intros s Hnone Hs. rewrite Hnone, Hs in Hsummary. simpl in Hsummary.
    rewrite coerce_str_VStr in Hsummary. simpl in Hsummary. congruence.
Qed.

Lemma slice_to_length {A} (l : list A) n :
  (length (slice_to l n) ≤ length l)%nat.
Proof. unfold slice_to. destruct (0 <=? n); rewrite length_take; lia. Qed.

Lemma slice_to_all {A} (l : list A) n :
  Z.of_nat (length l) ≤ n → slice_to l n = l.
Proof.
  intros Hn. unfold slice_to.
  destruct (0 <=? n) eqn:Hsign.
  - apply take_ge. lia.
  - apply Z.leb_gt in Hsign. lia.
Qed.

Lemma slice_to_nat {A} (l : list A) (n : nat) :
  slice_to l (Z.of_nat n) = take n l.
Proof.
  unfold slice_to. destruct (0 <=? Z.of_nat n) eqn:Hsign.
  - by rewrite Nat2Z.id.
  - apply Z.leb_gt in Hsign. lia.
Qed.

(** The sample: at most three hits, the projections of the first three
    raw hits when the items are a list. *)
Lemma project_hits_spec hits_data sample :
  project_hits hits_data = inr sample →
  (length sample ≤ 3)%nat ∧
  ∀ l, get hits_data "items" (VList []) = inr (VList l) →
       Forall2 projects (take 3 l) sample.
Proof.
  unfold project_hits. unfold mbind at 1 2 3, result_bind.
  destruct (get hits_data "items" (VList [])) as [e|items]; [done|].
  destruct items as [| | |s|l|d]; try done; simpl.
  - (* a string: it only gets through when it is empty *)
    destruct (code_points _) as [|c cs]; simpl; [|done].
    intros [= <-]. split; [simpl; lia|]. by intros l [=].
  - intros Hsample%mapM_result_Forall2.
    change 3 with (Z.of_nat 3) in Hsample. rewrite slice_to_nat in Hsample.
    split.
    + rewrite <-(Forall2_length _ _ _ Hsample), length_take. lia.
    + intros l' [= <-]. eapply Forall2_impl; [done|].
      intros raw hit. apply project_hit_projects.
Qed.

Lemma ValidationResult_new_sample is_valid sample count ws ss verdict :
  ValidationResult_new is_valid sample count ws ss = inr verdict →
  sample_hits verdict = sample.
Proof.
  unfold ValidationResult_new. intros Hv%validated_ok.
  destruct (coerce_int count); simpl in Hv; [|done]. by injection Hv as <-.
Qed.

Lemma verdict_sample sample count verdict :
  (ws ← classify count;
   is_valid ← py_gt_int count 0;
   ValidationResult_new is_valid sample count ws.1 ws.2) = inr verdict →
  sample_hits verdict = sample.
Proof.
  unfold mbind, result_bind.
  destruct (classify count) as [e|ws]; [done|].
  destruct (py_gt_int count 0) as [e|is_valid]; [done|].
  apply ValidationResult_new_sample.
Qed.

(** C7.  Once the hits are fetched, a verdict that
    [validate_filters_with_km24] returns carries as [sample_hits] the
    projection of [hits_data]: at most three hits, which are the
    projections of the first three raw hits, where a raw hit without
    title gets the title "Untitled", and the summary is the raw hit's
    summary, or its description when it has no summary. *)
Theorem sample_hits_projection
    module_id filters σ step_id hits_data σ3 verdict σ' :
  hits_fetched platform module_id filters σ step_id hits_data σ3 →
  validate_filters_with_km24 platform module_id filters σ = (inr verdict, σ') →
  project_hits hits_data = inr (sample_hits verdict) ∧
  (length (sample_hits verdict) ≤ 3)%nat ∧
  ∀ raw_hits, get hits_data "items" (VList []) = inr (VList raw_hits) →
              Forall2 projects (take 3 raw_hits) (sample_hits verdict).
Proof.
  intros Hfetched. rewrite (validate_after_hits _ _ _ _ _ _ _ Hfetched).
  destruct (project_hits hits_data) as [e|sample] eqn:Hsample; [done|].
  destruct (get hits_data "count" (VInt 0)) as [e|count]; [done|].
  destruct (delete_step _ _ _) as [[e|[]] σ4]; [done|].
  destruct (_ ← classify count; _) as [e|verdict'] eqn:Hverdict; [done|].
  intros [= -> _]. apply verdict_sample in Hverdict as ->.
  split; [done|]. by apply project_hits_spec.
Qed.

(** Every verdict has at most three sample hits. *)
Lemma validate_ok_sample_bound module_id filters σ verdict σ' :
  validate_filters_with_km24 platform module_id filters σ = (inr verdict, σ') →
  (length (sample_hits verdict) ≤ 3)%nat.
Proof.
  destruct (km24_client σ) as [self|] eqn:Hself.
  2:{ unfold validate_filters_with_km24. by rewrite Hself. }
  rewrite validate_unfold by eauto.
  destruct (get_module _ _ _) as [[e|module] σ1]; [done|].
  destruct (translate module filters) as [e|[|part parts]]; [done| |].
  - rewrite no_filters_result_eq. intros [= <- _]. simpl. lia.
  - rewrite validate_with_step_unfold.
    destruct (create_step _ _ _ _ _ _) as [[e|step] σ2]; [done|].
    destruct (getitem step "id") as [e|step_id]; [done|].
    destruct (get_step_hits _ _ _ _ _ _) as [[e|hits_data] σ3]; [done|].
    destruct (project_hits hits_data) as [e|sample] eqn:Hsample; [done|].
    destruct (get hits_data "count" (VInt 0)) as [e|count]; [done|].
    destruct (delete_step _ _ _) as [[e|[]] σ4]; [done|].
    destruct (_ ← classify count; _) as [e|verdict'] eqn:Hverdict; [done|].
    intros [= -> _]. apply verdict_sample in Hverdict as ->.
    by apply project_hits_spec in Hsample as [? _].
Qed.

(** [validate_filters_with_km24] raises nothing but [HTTPException]. *)
Lemma validate_raises_HTTPException module_id filters σ e σ' :
  validate_filters_with_km24 platform module_id filters σ = (inl e, σ') →
  ∃ status detail, e = HTTPException status detail.
Proof.
  destruct (km24_client σ) as [self|] eqn:Hself.
  2:{ unfold validate_filters_with_km24. rewrite Hself.
      intros [= <- _]. eauto. }
  rewrite validate_unfold by eauto.
  assert (∀ e0 σ0, on_validation_error e0 σ0 = (inl e, σ') →
            ∃ status detail, e = HTTPException status detail) as Hwrap.
  { intros e0 σ0. rewrite on_validation_error_eq. intros [= <- _]. eauto. }
  destruct (get_module _ _ _) as [[e1|module] σ1]; [by eauto|].
  destruct (translate module filters) as [e1|[|part parts]]; [by eauto| |].
  - rewrite no_filters_result_eq. done.
  - destruct (validate_with_step _ _ _ _) as [[e1|v] σ2]; [by eauto|done].
Qed.

(** C9.  The hits that [search_hits] returns are the sample hits of
    the validation run cut at [limit]; the sample has at most three
    hits, so the answer has at most three hits whatever the limit, and
    a limit of three or more returns the sample as it is. *)
Theorem search_hits_at_most_three module_id filters limit σ hits σ' :
  search_hits platform module_id filters limit σ = (inr hits, σ') →
  (length hits ≤ 3)%nat ∧
  ∃ verdict,
    validate_filters_with_km24 platform module_id filters
      (add_log (SearchingHits module_id limit) σ) = (inr verdict, σ') ∧
    hits = slice_to (sample_hits verdict) limit ∧
    (length (sample_hits verdict) ≤ 3)%nat ∧
    (3 ≤ limit → hits = sample_hits verdict).
Proof.
  unfold search_hits, try_except, mbind, M_bind, logger, mret, M_ret.
  destruct (validate_filters_with_km24 _ _ _ _) as [[e|verdict] σv] eqn:Hrun.
  - destruct (validate_raises_HTTPException _ _ _ _ _ Hrun)
      as (status & detail & ->). done.
  - intros [= <- <-].
    pose proof (validate_ok_sample_bound _ _ _ _ _ Hrun) as Hbound.
    split.
    + etrans; [apply slice_to_length|done].
    + exists verdict. split_and!; try done.
      intros Hlimit. apply slice_to_all. lia.
Qed.

End Projection_properties.

Section Cache_properties.
Context `{!Runtime} (platform : list request → request → reply).

Lemma set_modules_cache_client cache σ self :
  km24_client σ = Some self →
  km24_client (set_modules_cache cache σ)
  = Some {| api_key := api_key self; _modules_cache := cache |}.
Proof. intros Hself. unfold set_modules_cache. simpl. by rewrite Hself. Qed.

(** [get_module] computes the same whatever the cache holds. *)
Lemma get_module_ignores_cache module_id cache σ :
  get_module platform module_id (set_modules_cache cache σ)
  = ((get_module platform module_id σ).1,
     set_modules_cache cache (get_module platform module_id σ).2).
Proof.
  destruct (km24_client σ) as [self|] eqn:Hself.
  - rewrite (get_module_eq _ _ _ _ (set_modules_cache_client cache _ _ Hself)),
      (get_module_eq _ _ _ self) by done.
    simpl. by destruct (module_reply _).
  - rewrite !get_module_None; [done..|].
    unfold set_modules_cache. simpl. by rewrite Hself.
Qed.

Lemma get_module_result module_id σ :
  is_Some (km24_client σ) →
  (get_module platform module_id σ).1
  = module_reply (platform (requests σ) (GET_module module_id)).
Proof.
  intros [self Hself]. rewrite (get_module_eq _ _ _ self) by done.
  simpl. by destruct (module_reply _).
Qed.

Lemma module_detail_parts d raw_parts m :
  d !! "parts" = Some raw_parts →
  module_detail (VDict d) = inr m →
  coerce_dict_list raw_parts = Some (m_parts m).
Proof.
  intros Hparts. unfold module_detail, getitem, get, KM24Module_new.
  rewrite Hparts. simpl.
  destruct (d !! "id") as [id|]; [|done].
  destruct (d !! "title") as [title|]; [|done]. simpl.
  unfold validated.
  destruct (coerce_int id); simpl; [|done].
  destruct (coerce_str title); simpl; [|done].
  destruct (coerce_str _); simpl; [|done].
  destruct (coerce_opt_str _); simpl; [|done].
  destruct (coerce_dict_list raw_parts); simpl; [|done].
  by intros [= <-].
Qed.

Lemma get_modules_miss force_refresh σ self :
  km24_client σ = Some self →
  force_refresh = true ∨ _modules_cache self = None
  ∨ _modules_cache self = Some [] →
  get_modules platform force_refresh σ =
    let σ1 := add_request GET_modules σ in
    match module_list (platform (requests σ) GET_modules) with
    | inl e => (inl e, add_log (ErrorFetchingModules e) σ1)
    | inr modules =>
        (inr modules,
         add_log (LoadedModules (length modules))
           (set_modules_cache (Some modules) σ1))
    end.
Proof.
  intros Hself Hmiss. rewrite (get_modules_eq _ _ _ self) by done.
  destruct Hmiss as [->|[->| ->]]; try done.
  by destruct (_modules_cache self) as [[|m ms]|].
Qed.

(** C8.  [get_modules] answers from a non-empty cache, without any
    request, unless a refresh is forced; otherwise it sends one request
    for the list and, when that succeeds, the fetched list replaces the
    cache and is returned.  [get_module] computes the same whatever the
    cache holds and leaves the client as it is: it sends its request at
    every call and returns what the reply decodes to, with the parts of
    the payload. *)
Theorem module_cache_policy force_refresh module_id σ self :
  km24_client σ = Some self →
  (∀ m ms, _modules_cache self = Some (m :: ms) → force_refresh = false →
     get_modules platform force_refresh σ = (inr (m :: ms), σ)) ∧
  (force_refresh = true ∨ _modules_cache self = None
   ∨ _modules_cache self = Some [] →
     requests (get_modules platform force_refresh σ).2
     = requests σ ++ [GET_modules] ∧
     ∀ modules σ',
       get_modules platform force_refresh σ = (inr modules, σ') →
       module_list (platform (requests σ) GET_modules) = inr modules ∧
       km24_client σ'
       = Some {| api_key := api_key self; _modules_cache := Some modules |}) ∧
  (∀ cache,
     get_module platform module_id (set_modules_cache cache σ)
     = ((get_module platform module_id σ).1,
        set_modules_cache cache (get_module platform module_id σ).2)) ∧
  km24_client (get_module platform module_id σ).2 = km24_client σ ∧
  requests (get_module platform module_id σ).2
  = requests σ ++ [GET_module module_id] ∧
  (get_module platform module_id σ).1
  = module_reply (platform (requests σ) (GET_module module_id)) ∧
  (∀ d raw_parts m,
     decode_json (platform (requests σ) (GET_module module_id))
     = inr (VDict d) →
     d !! "parts" = Some raw_parts →
     (get_module platform module_id σ).1 = inr m →
     coerce_dict_list raw_parts = Some (m_parts m)).
Proof.
  intros Hself. split_and!.
  - intros m ms Hcache ->.
    by rewrite (get_modules_eq _ _ _ self), Hcache.
  - intros Hmiss. rewrite (get_modules_miss _ _ self) by done.
    simpl. destruct (module_list _) as [e|modules]; simpl.
    + split; [done|]. by intros modules σ'.
    + split; [done|]. intros modules' σ' [= <- <-]. split; [done|].
      simpl. by rewrite Hself.
  - intros cache. apply get_module_ignores_cache.
  - apply get_module_client.
  - apply get_module_requests. by eauto.
  - apply get_module_result. by eauto.
  - intros d raw_parts m Hdata Hparts.
    rewrite get_module_result by eauto.
    unfold module_reply. rewrite Hdata. simpl.
    by apply module_detail_parts.
Qed.

(** C10.  [get_module] leaves the module-list cache as it found it,
    whether it returns or raises. *)
Theorem get_module_keeps_cache module_id σ :
  _modules_cache <$> km24_client (get_module platform module_id σ).2
  = _modules_cache <$> km24_client σ.
Proof. by rewrite get_module_client. Qed.

(** The deletion is the last request of a run that gets to it. *)
Lemma cleanup_request module_id filters σ step_id sample count σ3 :
  ready_to_clean_up platform module_id filters σ step_id sample count σ3 →
  requests (validate_filters_with_km24 platform module_id filters σ).2
  = requests σ3 ++ [DELETE_step step_id].
Proof.
  intros (hits_data & Hfetched & Hsample & Hcount).
  rewrite (validate_after_hits _ _ _ _ _ _ _ Hfetched), Hsample, Hcount.
  destruct (hits_fetched_state _ _ _ _ _ _ _ Hfetched) as (Hc & Hc3 & _).
  rewrite <-Hc3 in Hc.
  pose proof (delete_step_requests platform step_id σ3 Hc) as Hr.
  destruct (delete_step _ _ _) as [[e|[]] σ4]; [done|].
  by destruct (_ ← classify count; _).
Qed.

End Cache_properties.

(* ===================================================================== *)
(** * The scenarios, run                                                  *)
(* ===================================================================== *)

Section Runs.
Import Scenario.

Example translate_kommune :
  translate module110_loaded kommune_aarhus = inr aarhus_parts.
Proof. vm_compute. reflexivity. Qed.

Example translate_branche : translate module110_loaded branche_byggeri = inr [].
Proof. vm_compute. reflexivity. Qed.

Example classify_100 : classify (VInt 100) = inr ([], []).
Proof. reflexivity. Qed.

Example classify_101 :
  classify (VInt 101)
  = inr (["Meget høj hitrate (101 hits)"],
         ["Overvej at indsnævre med flere specifikke filtre"]).
Proof. vm_compute. reflexivity. Qed.

(** The successful flow: five hits, three of them in the sample, the
    step deleted once, as the last request. *)
Example validate_five_hits :
  validate_filters_with_km24 (platform_ok 5) 110 kommune_aarhus fresh
  = (inr {| is_valid := true; sample_hits := sample; hit_count := 5;
            warnings := []; suggestions := [] |},
     deleted).
Proof. vm_compute. reflexivity. Qed.

(** No step is created, none is deleted. *)
Example validate_step_rejected :
  requests (validate_filters_with_km24 platform_rejects_step 110
              kommune_aarhus fresh).2
  = [GET_module 110; temp_step].
Proof. vm_compute. reflexivity. Qed.

(** C1: the run creates step 42, the hit fetch raises, and the run ends
    without a [DELETE] for the step: the temporary step stays on the
    platform. *)
Theorem step_leaks_when_hit_fetch_fails :
  let run := validate_filters_with_km24 platform_hits_down 110
               kommune_aarhus fresh in
  run.1 = inl (HTTPException 500 "Failed to validate filters: status 500") ∧
  requests run.2
  = [GET_module 110; temp_step; GET_hits (VInt 42) 1 10 "-hitDatetime"] ∧
  log run.2
  = [LoadedModule 110 "Arbejdstilsyn" 1;
     CreatedStep (VInt 42) "__temp_validation_110";
     ErrorFetchingHits (VInt 42) (HTTPStatusError 500);
     ErrorValidatingFilters (HTTPStatusError 500)].
Proof. vm_compute. done. Qed.

(** C2, refuted: on two platforms that differ in the reply to [DELETE]
    only, the run returns a verdict on the one and raises on the other;
    [delete_step] itself raises. *)
Lemma cleanup_failure_is_raised :
  (delete_step platform_delete_fails (VInt 42) fetched).1
  = inl (HTTPStatusError 404) ∧
  (validate_filters_with_km24 (platform_ok 5) 110 kommune_aarhus fresh).1
  = inr {| is_valid := true; sample_hits := sample; hit_count := 5;
           warnings := []; suggestions := [] |} ∧
  (validate_filters_with_km24 platform_delete_fails 110 kommune_aarhus fresh).1
  = inl (HTTPException 500 "Failed to validate filters: status 404") ∧
  (validate_filters_with_km24 platform_delete_fails 110 kommune_aarhus fresh).1
  ≠ (validate_filters_with_km24 (platform_ok 5) 110 kommune_aarhus fresh).1.
Proof. vm_compute. split_and!; done. Qed.

(** C3, refuted: the failure of the module fetch is an
    [HTTPStatusError] with status 404, what the caller gets is an
    [HTTPException] with status 500; a 503 of the platform gives the
    same status 500. *)
Lemma not_found_is_not_propagated :
  (get_module platform_no_module 110 fresh).1 = inl (HTTPStatusError 404) ∧
  (validate_filters_with_km24 platform_no_module 110 kommune_aarhus fresh).1
  = inl (HTTPException 500 "Failed to validate filters: status 404") ∧
  (validate_filters_with_km24 platform_no_module 110 kommune_aarhus fresh).1
  ≠ inl (HTTPStatusError 404) ∧
  (validate_filters_with_km24 platform_unavailable 110 kommune_aarhus fresh).1
  = inl (HTTPException 500 "Failed to validate filters: status 503").
Proof. vm_compute. split_and!; done. Qed.


(** ** Instances of the theorems on the scenarios *)

Ltac run := vm_compute; reflexivity.

Ltac run_to_step :=
  exists module110_loaded, (dict [("id", VInt 42)]), loaded;
  split_and!; [run | run | discriminate | run | run].

Ltac run_to_cleanup count :=
  exists (hits_page count); split_and!;
  [exists aarhus_parts, created; split; [run_to_step | run] | run | run].

Lemma cleanup_failure_replaces_verdict_witness :
  ready_to_clean_up platform_delete_fails 110 kommune_aarhus fresh
    (VInt 42) sample (VInt 5) fetched ∧
  delete_step platform_delete_fails (VInt 42) fetched
  = (inl (HTTPStatusError 404), not_deleted (HTTPStatusError 404)) ∧
  validate_filters_with_km24 platform_delete_fails 110 kommune_aarhus fresh
  = (inl (HTTPException 500 "Failed to validate filters: status 404"),
     add_log (ErrorValidatingFilters (HTTPStatusError 404))
       (not_deleted (HTTPStatusError 404))).
Proof.
  assert (ready_to_clean_up platform_delete_fails 110 kommune_aarhus fresh
            (VInt 42) sample (VInt 5) fetched) as Hready
    by run_to_cleanup 5.
  assert (delete_step platform_delete_fails (VInt 42) fetched
          = (inl (HTTPStatusError 404), not_deleted (HTTPStatusError 404)))
    as Hdelete by run.
  split; [exact Hready|]. split; [exact Hdelete|].
  exact (proj1 (cleanup_failure_replaces_verdict _ _ _ _ _ _ _ _ _ _
                  Hready Hdelete)).
Defined.

Lemma pipeline_failure_is_wrapped_witness :
  is_Some (km24_client fresh) ∧
  pipeline_failure platform_hits_down 110 kommune_aarhus fresh
    (HTTPStatusError 500)
    (add_log (ErrorFetchingHits (VInt 42) (HTTPStatusError 500))
       (add_request (GET_hits (VInt 42) 1 10 "-hitDatetime") created))
    [GET_module 110; temp_step; GET_hits (VInt 42) 1 10 "-hitDatetime"] ∧
  validate_filters_with_km24 platform_hits_down 110 kommune_aarhus fresh
  = (inl (HTTPException 500 "Failed to validate filters: status 500"),
     add_log (ErrorValidatingFilters (HTTPStatusError 500))
       (add_log (ErrorFetchingHits (VInt 42) (HTTPStatusError 500))
          (add_request (GET_hits (VInt 42) 1 10 "-hitDatetime") created))).
Proof.
  assert (is_Some (km24_client fresh)) as Hclient by (by eexists).
  assert (pipeline_failure platform_hits_down 110 kommune_aarhus fresh
            (HTTPStatusError 500)
            (add_log (ErrorFetchingHits (VInt 42) (HTTPStatusError 500))
               (add_request (GET_hits (VInt 42) 1 10 "-hitDatetime") created))
            [GET_module 110; temp_step;
             GET_hits (VInt 42) 1 10 "-hitDatetime"]) as Hfail.
  { assert (step_created platform_hits_down 110 kommune_aarhus fresh
              aarhus_parts (VInt 42) created) as Hcreated by run_to_step.
    assert (get_step_hits platform_hits_down (VInt 42) 1 10 "-hitDatetime"
              created
            = (inl (HTTPStatusError 500),
               add_log (ErrorFetchingHits (VInt 42) (HTTPStatusError 500))
                 (add_request (GET_hits (VInt 42) 1 10 "-hitDatetime")
                    created))) as Hhits by run.
    exact (hit_fetch_fails platform_hits_down 110 kommune_aarhus fresh
             aarhus_parts (VInt 42) _ created _ Hcreated Hhits). }
  split; [exact Hclient|]. split; [exact Hfail|].
  exact (proj1 (pipeline_failure_is_wrapped _ _ _ _ _ _ _ Hclient Hfail)).
Defined.

Lemma no_filters_short_circuit_witness :
  get_module (platform_ok 5) 110 fresh = (inr module110_loaded, loaded) ∧
  translate module110_loaded branche_byggeri = inr [] ∧
  validate_filters_with_km24 (platform_ok 5) 110 branche_byggeri fresh
  = (inr {| is_valid := false; sample_hits := []; hit_count := 0;
            warnings := ["Ingen filtre valgt"];
            suggestions :=
              ["Tilføj mindst ét filter for at indsnævre søgningen"] |},
     loaded) ∧
  requests loaded = requests fresh ++ [GET_module 110].
Proof.
  assert (get_module (platform_ok 5) 110 fresh
          = (inr module110_loaded, loaded)) as Hmodule by run.
  assert (translate module110_loaded branche_byggeri = inr []) as Hnone
    by run.
  split; [exact Hmodule|]. split; [exact Hnone|].
  exact (no_filters_short_circuit _ _ _ _ _ _ Hmodule Hnone).
Defined.


Lemma verdict_classification_witness :
  ready_to_clean_up (platform_ok 101) 110 kommune_aarhus fresh
    (VInt 42) sample (VInt 101) fetched ∧
  delete_step (platform_ok 101) (VInt 42) fetched = (inr (), deleted) ∧
  ∃ verdict,
    validate_filters_with_km24 (platform_ok 101) 110 kommune_aarhus fresh
    = (inr verdict, deleted) ∧
    hit_count verdict = 101 ∧
    (is_valid verdict = true ↔ 0 < 101) ∧
    warnings verdict = ["Meget høj hitrate (101 hits)"] ∧
    suggestions verdict = ["Overvej at indsnævre med flere specifikke filtre"].
Proof.
  assert (ready_to_clean_up (platform_ok 101) 110 kommune_aarhus fresh
            (VInt 42) sample (VInt 101) fetched) as Hready
    by run_to_cleanup 101.
  assert (delete_step (platform_ok 101) (VInt 42) fetched
          = (inr (), deleted)) as Hdelete by run.
  split; [exact Hready|]. split; [exact Hdelete|].
  destruct (verdict_classification _ _ _ _ _ _ _ _ _ Hready Hdelete)
    as (verdict & Hrun & Hcount & _ & Hvalid & _ & _ & Hhigh).
  exists verdict. split; [exact Hrun|]. split; [exact Hcount|].
  split; [exact Hvalid|]. apply Hhigh. lia.
Defined.

Example translate_mixed :
  translate three_parts mixed_filters
  = inr [{| modulePartId := VInt 5;
            values := [VStr "Aarhus"; VStr "Odense"] |};
         {| modulePartId := VInt 7; values := [VStr "Asbest"] |}].
Proof. vm_compute. reflexivity. Qed.

Lemma translate_spec_witness :
  Forall well_formed_part (m_parts three_parts) ∧
  NoDup mixed_filters.*1 ∧
  ∃ parts,
    translate three_parts mixed_filters = inr parts ∧
    Forall2 (emitted three_parts)
      (filter (survives three_parts) mixed_filters) parts ∧
    (length parts
     ≤ size (list_to_set mixed_filters.*1 ∩ slugs three_parts))%nat.
Proof.
  assert (Forall well_formed_part (m_parts three_parts)) as Hparts.
  { repeat constructor; try (by eexists; vm_compute; reflexivity). }
  assert (NoDup mixed_filters.*1) as Hkeys.
  { apply (bool_decide_unpack _). vm_compute. exact I. }
  split; [exact Hparts|]. split; [exact Hkeys|].
  exact (translate_spec three_parts mixed_filters Hparts Hkeys).
Defined.

Lemma sample_hits_projection_witness :
  hits_fetched (platform_ok 5) 110 kommune_aarhus fresh (VInt 42)
    (hits_page 5) fetched ∧
  validate_filters_with_km24 (platform_ok 5) 110 kommune_aarhus fresh
  = (inr {| is_valid := true; sample_hits := sample; hit_count := 5;
            warnings := []; suggestions := [] |},
     deleted) ∧
  project_hits (hits_page 5) = inr sample ∧
  (length sample ≤ 3)%nat ∧
  Forall2 projects (take 3 (raw_hit <$> [1; 2; 3; 4; 5])) sample.
Proof.
  assert (hits_fetched (platform_ok 5) 110 kommune_aarhus fresh (VInt 42)
            (hits_page 5) fetched) as Hfetched
    by (exists aarhus_parts, created; split; [run_to_step | run]).
  assert (validate_filters_with_km24 (platform_ok 5) 110 kommune_aarhus fresh
          = (inr {| is_valid := true; sample_hits := sample; hit_count := 5;
                    warnings := []; suggestions := [] |},
             deleted)) as Hrun by run.
  split; [exact Hfetched|]. split; [exact Hrun|].
  destruct (sample_hits_projection _ _ _ _ _ _ _ _ _ Hfetched Hrun)
    as (Hsample & Hbound & Hraw).
  split; [exact Hsample|]. split; [exact Hbound|].
  apply Hraw. run.
Defined.

Lemma module_cache_policy_witness :
  km24_client warm = Some (client (Some [arbejdstilsyn])) ∧
  get_modules (platform_ok 5) false warm = (inr [arbejdstilsyn], warm) ∧
  requests (get_modules (platform_ok 5) true warm).2
  = requests warm ++ [GET_modules] ∧
  km24_client (get_module (platform_ok 5) 110 warm).2 = km24_client warm.
Proof.
  assert (km24_client warm = Some (client (Some [arbejdstilsyn])))
    as Hclient by reflexivity.
  split; [exact Hclient|].
  split; [|split].
  - destruct (module_cache_policy (platform_ok 5) false 110 warm _ Hclient)
      as (Hhit & _).
    exact (Hhit arbejdstilsyn [] eq_refl eq_refl).
  - destruct (module_cache_policy (platform_ok 5) true 110 warm _ Hclient)
      as (_ & Hmiss & _).
    exact (proj1 (Hmiss (or_introl eq_refl))).
  - destruct (module_cache_policy (platform_ok 5) true 110 warm _ Hclient)
      as (_ & _ & _ & Hframe & _).
    exact Hframe.
Defined.

Lemma search_hits_at_most_three_witness :
  search_hits (platform_ok 5) 110 kommune_aarhus 10 fresh
  = (inr sample, searched) ∧
  (length sample ≤ 3)%nat ∧
  sample = slice_to sample 10.
Proof.
  assert (search_hits (platform_ok 5) 110 kommune_aarhus 10 fresh
          = (inr sample, searched)) as Hrun by run.
  split; [exact Hrun|].
  destruct (search_hits_at_most_three _ _ _ _ _ _ _ Hrun)
    as (Hbound & _).
  split; [exact Hbound|]. reflexivity.
Defined.

End Runs.

(* ===================================================================== *)
(** * Further properties of the gateway                                   *)
(* ===================================================================== *)

Section Gateway_edges.
Context `{!Runtime} (platform : list request → request → reply).

(** A call that raises leaves the client as it was. *)
Lemma get_modules_raise_client force_refresh σ e σ' :
  get_modules platform force_refresh σ = (inl e, σ') →
  km24_client σ' = km24_client σ.
Proof.
  destruct (km24_client σ) as [self|] eqn:Hself.
  - rewrite (get_modules_eq _ _ _ self) by done.
    destruct (_modules_cache self) as [[|m ms]|], force_refresh; try done;
      simpl; destruct (module_list _); by intros [= <- <-].
  - unfold get_modules, mbind, M_bind, this. rewrite Hself.
    by intros [= _ <-].
Qed.

(** A call that returns leaves the list it returns in the cache. *)
Lemma get_modules_ok_cache force_refresh σ modules σ' :
  get_modules platform force_refresh σ = (inr modules, σ') →
  ∃ self', km24_client σ' = Some self' ∧ _modules_cache self' = Some modules.
Proof.
  destruct (km24_client σ) as [self|] eqn:Hself.
  2:{ unfold get_modules, mbind, M_bind, this. by rewrite Hself. }
  rewrite (get_modules_eq _ _ _ self) by done.
  destruct (_modules_cache self) as [[|m ms]|] eqn:Hcache, force_refresh;
    simpl;
    try (destruct (module_list _) as [|fetched]; [done|];
         intros [= <- <-]; simpl; rewrite Hself; by eexists).
  intros [= <- <-]. by exists self.
Qed.

(** A cache that is not empty answers an unforced call. *)
Lemma get_modules_hit σ self m ms :
  km24_client σ = Some self →
  _modules_cache self = Some (m :: ms) →
  get_modules platform false σ = (inr (m :: ms), σ).
Proof. intros Hself Hcache. by rewrite (get_modules_eq _ _ _ self), Hcache. Qed.

(** X1.  When [get_modules] raises, on a client that exists, it has sent
    one request and logged the failure, and the client is as before: a
    failed refresh keeps the list that was cached. *)
Theorem get_modules_failure_keeps_cache force_refresh σ e σ' :
  is_Some (km24_client σ) →
  get_modules platform force_refresh σ = (inl e, σ') →
  km24_client σ' = km24_client σ ∧
  requests σ' = requests σ ++ [GET_modules] ∧
  log σ' = log σ ++ [ErrorFetchingModules e].
Proof.
  intros [self Hself] Hrun.
  split; [by apply get_modules_raise_client in Hrun|].
  revert Hrun. rewrite (get_modules_eq _ _ _ self) by done.
  destruct (_modules_cache self) as [[|m ms]|], force_refresh; try done;
    simpl; destruct (module_list _); by intros [= <- <-].
Qed.

(** X2.  Once [get_modules] has returned a list that is not empty, an
    unforced call returns the same list and leaves the world as it is:
    no request, no log line. *)
Theorem get_modules_then_cached force_refresh σ m ms σ' :
  get_modules platform force_refresh σ = (inr (m :: ms), σ') →
  get_modules platform false σ' = (inr (m :: ms), σ').
Proof.
  intros Hrun.
  destruct (get_modules_ok_cache _ _ _ _ Hrun) as (self' & Hself' & Hcache).
  by apply (get_modules_hit _ self').
Qed.

(** X3.  An empty module list is never served from the cache: after
    [get_modules] has returned the empty list, the next call sends its
    request again. *)
Theorem empty_module_list_is_fetched_again force_refresh σ σ' :
  get_modules platform force_refresh σ = (inr [], σ') →
  requests (get_modules platform false σ').2 = requests σ' ++ [GET_modules].
Proof.
  intros Hrun.
  destruct (get_modules_ok_cache _ _ _ _ Hrun) as (self' & Hself' & Hcache).
  rewrite (get_modules_miss _ _ _ self') by eauto.
  simpl. by destruct (module_list _).
Qed.

(** X4.  A reply with a status outside 200-299 makes every method raise
    [HTTPStatusError] with that status, whatever the body; the method
    has logged the failure and nothing else. *)
Theorem non_2xx_raises module_id name parts lookback step_id page page_size
    ordering σ status body :
  is_Some (km24_client σ) →
  status < 200 ∨ 299 < status →
  (platform (requests σ) (GET_module module_id) = Response status body →
   get_module platform module_id σ
   = (inl (HTTPStatusError status),
      add_log (ErrorFetchingModule module_id (HTTPStatusError status))
        (add_request (GET_module module_id) σ))) ∧
  (platform (requests σ) (POST_step name module_id lookback parts)
   = Response status body →
   create_step platform name module_id parts lookback σ
   = (inl (HTTPStatusError status),
      add_log (ErrorCreatingStep (HTTPStatusError status))
        (add_request (POST_step name module_id lookback parts) σ))) ∧
  (platform (requests σ) (GET_hits step_id page page_size ordering)
   = Response status body →
   get_step_hits platform step_id page page_size ordering σ
   = (inl (HTTPStatusError status),
      add_log (ErrorFetchingHits step_id (HTTPStatusError status))
        (add_request (GET_hits step_id page page_size ordering) σ))) ∧
  (platform (requests σ) (DELETE_step step_id) = Response status body →
   delete_step platform step_id σ
   = (inl (HTTPStatusError status),
      add_log (ErrorDeletingStep step_id (HTTPStatusError status))
        (add_request (DELETE_step step_id) σ))).
Proof.
  intros [self Hself] Hstatus.
  assert ((200 <=? status) && (status <=? 299) = false) as Hcheck.
  { apply andb_false_iff. rewrite Z.leb_gt, Z.leb_gt. lia. }
  split_and!; intros Hreply.
  - rewrite (get_module_eq _ _ _ self) by done.
    unfold module_reply, decode_json, check_status. simpl.
    by rewrite Hreply, Hcheck.
  - rewrite (create_step_eq _ _ _ _ _ _ self) by done.
    unfold step_reply, decode_json, check_status. simpl.
    by rewrite Hreply, Hcheck.
  - rewrite (get_step_hits_eq _ _ _ _ _ _ self) by done.
    unfold hits_reply, decode_json, check_status. simpl.
    by rewrite Hreply, Hcheck.
  - rewrite (delete_step_eq _ _ _ self) by done.
    unfold check_status. simpl. by rewrite Hreply, Hcheck.
Qed.

(** X5.  [delete_step] returns exactly when the platform answers with a
    status from 200 to 299; the body of the answer is never looked at. *)
Theorem delete_step_returns_iff step_id σ :
  is_Some (km24_client σ) →
  (delete_step platform step_id σ).1 = inr () ↔
  ∃ status body,
    platform (requests σ) (DELETE_step step_id) = Response status body ∧
    200 ≤ status ≤ 299.
Proof.
  intros [self Hself]. rewrite (delete_step_eq _ _ _ self) by done.
  unfold check_status. simpl.
  destruct (platform _ _) as [|status body]; simpl.
  - split; [done|]. by intros (? & ? & ? & _).
  - destruct ((200 <=? status) && (status <=? 299)) eqn:Hcheck; simpl.
    + apply andb_true_iff in Hcheck as [?%Z.leb_le ?%Z.leb_le].
      split; [|done]. intros _. by exists status, body.
    + apply andb_false_iff in Hcheck.
      split; [done|]. intros (s & b & [= <- <-] & Hs).
      rewrite !Z.leb_gt in Hcheck. lia.
Qed.

(** X6.  When the platform accepts the step but its answer carries no
    id, [create_step] raises [KeyError]: the request was sent, and the
    caller has no id to delete the step with. *)
Theorem create_step_without_id name module_id parts lookback σ status d :
  is_Some (km24_client σ) →
  platform (requests σ) (POST_step name module_id lookback parts)
  = Response status (Some (VDict d)) →
  200 ≤ status ≤ 299 →
  d !! "id" = None →
  create_step platform name module_id parts lookback σ
  = (inl (KeyError "id"),
     add_log (ErrorCreatingStep (KeyError "id"))
       (add_request (POST_step name module_id lookback parts) σ)).
Proof.
  intros [self Hself] Hreply Hstatus Hid.
  rewrite (create_step_eq _ _ _ _ _ _ self) by done.
  unfold step_reply, decode_json, check_status, getitem. simpl.
  rewrite Hreply.
  assert ((200 <=? status) && (status <=? 299) = true) as ->.
  { apply andb_true_iff. rewrite !Z.leb_le. lia. }
  simpl. by rewrite Hid.
Qed.


End Gateway_edges.

(* ===================================================================== *)
(** * Further properties of the validation pipeline                       *)
(* ===================================================================== *)

Section Validation_edges.
Context `{!Runtime} (platform : list request → request → reply).

Lemma on_validation_error_client e σ :
  km24_client (on_validation_error e σ).2 = km24_client σ.
Proof. done. Qed.

Lemma on_validation_error_requests e σ :
  requests (on_validation_error e σ).2 = requests σ.
Proof. done. Qed.

Lemma validate_raises_500 module_id filters σ e σ' :
  validate_filters_with_km24 platform module_id filters σ = (inl e, σ') →
  ∃ detail, e = HTTPException 500 detail.
Proof.
  destruct (km24_client σ) as [self|] eqn:Hself.
  2:{ unfold validate_filters_with_km24. rewrite Hself.
      intros [= <- _]. by eauto. }
  rewrite validate_unfold by eauto.
  assert (∀ e0 σ0, on_validation_error e0 σ0 = (inl e, σ') →
            ∃ detail, e = HTTPException 500 detail) as Hwrap.
  { intros e0 σ0. rewrite on_validation_error_eq. intros [= <- _]. by eauto. }
  destruct (get_module _ _ _) as [[e1|module] σ1]; [by eauto|].
  destruct (translate module filters) as [e1|[|part parts]]; [by eauto| |].
  - by rewrite no_filters_result_eq.
  - destruct (validate_with_step _ _ _ _) as [[e1|v] σ2]; [by eauto|done].
Qed.

(** X8.  Whatever [validate_filters_with_km24] raises is an
    [HTTPException] with status 500: with the detail "KM24 API not
    configured", and nothing done, exactly when there is no client;
    otherwise with the text of the exception it caught, which it has
    logged last. *)
Theorem validate_error_surface module_id filters σ e σ' :
  validate_filters_with_km24 platform module_id filters σ = (inl e, σ') →
  (km24_client σ = None ∧ σ' = σ ∧
   e = HTTPException 500 "KM24 API not configured") ∨
  (is_Some (km24_client σ) ∧
   ∃ cause,
     e = HTTPException 500 ("Failed to validate filters: " +:+ exn_str cause) ∧
     last (log σ') = Some (ErrorValidatingFilters cause)).
Proof.
  destruct (km24_client σ) as [self|] eqn:Hself.
  2:{ unfold validate_filters_with_km24. rewrite Hself.
      intros [= <- <-]. by left. }
  intros Hrun. right. split; [by eauto|]. revert Hrun.
  rewrite validate_unfold by eauto.
  assert (∀ cause σ0, on_validation_error cause σ0 = (inl e, σ') →
            ∃ cause,
              e = HTTPException 500
                    ("Failed to validate filters: " +:+ exn_str cause) ∧
              last (log σ') = Some (ErrorValidatingFilters cause)) as Hwrap.
  { intros cause σ0. rewrite on_validation_error_eq. intros [= <- <-].
    exists cause. split; [done|]. simpl. by rewrite last_snoc. }
  destruct (get_module _ _ _) as [[cause|module] σ1]; [by eauto|].
  destruct (translate module filters) as [cause|[|part parts]]; [by eauto| |].
  - by rewrite no_filters_result_eq.
  - destruct (validate_with_step _ _ _ _) as [[cause|v] σ2]; [by eauto|done].
Qed.

Lemma validate_with_step_client module_id parts σ1 :
  km24_client (validate_with_step platform module_id parts σ1).2
  = km24_client σ1.
Proof.
  rewrite validate_with_step_unfold.
  pose proof (create_step_client platform (step_name module_id) module_id
                parts 30 σ1) as H2.
  destruct (create_step _ _ _ _ _ _) as [[e|step] σ2]; [done|]. simpl in H2.
  destruct (getitem step "id") as [e|step_id]; [done|].
  pose proof (get_step_hits_client platform step_id 1 10 "-hitDatetime" σ2)
    as H3.
  destruct (get_step_hits _ _ _ _ _ _) as [[e|hits_data] σ3];
    simpl in H3; [simpl; congruence|].
  destruct (project_hits hits_data) as [e|sample]; [simpl; congruence|].
  destruct (get hits_data "count" (VInt 0)) as [e|count]; [simpl; congruence|].
  pose proof (delete_step_client platform step_id σ3) as H4.
  destruct (delete_step _ _ _) as [[e|[]] σ4]; simpl in *; congruence.
Qed.

(** X9.  A validation run leaves the client object, and with it the
    module-list cache, as it found it. *)
Theorem validate_keeps_client module_id filters σ :
  km24_client (validate_filters_with_km24 platform module_id filters σ).2
  = km24_client σ.
Proof.
  destruct (km24_client σ) as [self|] eqn:Hself.
  2:{ unfold validate_filters_with_km24. by rewrite Hself. }
  rewrite validate_unfold by eauto.
  pose proof (get_module_client platform module_id σ) as H1.
  destruct (get_module _ _ _) as [[e|module] σ1]; simpl in H1;
    [simpl; congruence|].
  destruct (translate module filters) as [e|[|part parts]];
    [simpl; congruence| |].
  - rewrite no_filters_result_eq. simpl. congruence.
  - pose proof (validate_with_step_client module_id (part :: parts) σ1) as H2.
    destruct (validate_with_step _ _ _ _) as [[e|v] σ2]; simpl in *; congruence.
Qed.

(** The requests of the part of a run that works with a step. *)
Lemma validate_with_step_requests module_id parts σ1 :
  is_Some (km24_client σ1) →
  ∃ step_id sent,
    requests (validate_with_step platform module_id parts σ1).2
    = requests σ1 ++ sent ∧
    sent `prefix_of`
      [POST_step (step_name module_id) module_id 30 parts;
       GET_hits step_id 1 10 "-hitDatetime";
       DELETE_step step_id] ∧
    (∀ verdict σ',
       validate_with_step platform module_id parts σ1 = (inr verdict, σ') →
       sent = [POST_step (step_name module_id) module_id 30 parts;
               GET_hits step_id 1 10 "-hitDatetime";
               DELETE_step step_id]).
Proof.
  intros Hc1. rewrite validate_with_step_unfold.
  pose proof (create_step_client platform (step_name module_id) module_id
                parts 30 σ1) as Hc2.
  pose proof (create_step_requests platform (step_name module_id) module_id
                parts 30 σ1 Hc1) as Hr2.
  destruct (create_step _ _ _ _ _ _) as [[e|step] σ2]; simpl in Hc2, Hr2.
  { exists VNone, [POST_step (step_name module_id) module_id 30 parts].
    split_and!; [done| by eexists |done]. }
  destruct (getitem step "id") as [e|step_id].
  { exists VNone, [POST_step (step_name module_id) module_id 30 parts].
    split_and!; [done| by eexists |done]. }
  rewrite <-Hc2 in Hc1.
  pose proof (get_step_hits_client platform step_id 1 10 "-hitDatetime" σ2)
    as Hc3.
  pose proof (get_step_hits_requests platform step_id 1 10 "-hitDatetime" σ2
                Hc1) as Hr3.
  assert (∀ σ0, requests σ0 = requests σ2 ++ [GET_hits step_id 1 10 "-hitDatetime"] →
            requests σ0 = requests σ1 ++
              [POST_step (step_name module_id) module_id 30 parts;
               GET_hits step_id 1 10 "-hitDatetime"]) as Htwo.
  { intros σ0 ->. by rewrite Hr2, <-(assoc_L (++)). }
  destruct (get_step_hits _ _ _ _ _ _) as [[e|hits_data] σ3];
    simpl in Hc3, Hr3.
  { exists step_id, [POST_step (step_name module_id) module_id 30 parts;
                     GET_hits step_id 1 10 "-hitDatetime"].
    split_and!; [by apply Htwo| by eexists |done]. }
  destruct (project_hits hits_data) as [e|sample].
  { exists step_id, [POST_step (step_name module_id) module_id 30 parts;
                     GET_hits step_id 1 10 "-hitDatetime"].
    split_and!; [by apply Htwo| by eexists |done]. }
  destruct (get hits_data "count" (VInt 0)) as [e|count].
  { exists step_id, [POST_step (step_name module_id) module_id 30 parts;
                     GET_hits step_id 1 10 "-hitDatetime"].
    split_and!; [by apply Htwo| by eexists |done]. }
  rewrite <-Hc3 in Hc1.
  pose proof (delete_step_requests platform step_id σ3 Hc1) as Hr4.
  exists step_id, [POST_step (step_name module_id) module_id 30 parts;
                   GET_hits step_id 1 10 "-hitDatetime";
                   DELETE_step step_id].
  assert (∀ r, requests
                 (let '(r0, σ4) := delete_step platform step_id σ3 in
                  match r0 with
                  | inl e => (inl e, σ4)
                  | inr _ => (r : result ValidationResult, σ4)
                  end).2
               = requests σ1 ++
                   [POST_step (step_name module_id) module_id 30 parts;
                    GET_hits step_id 1 10 "-hitDatetime";
                    DELETE_step step_id]) as Hfour.
  { intros r. destruct (delete_step _ _ _) as [[e|[]] σ4]; simpl in *;
      by rewrite Hr4, (Htwo _ Hr3), <-(assoc_L (++)). }
  split_and!; [|done|done].
  specialize (Hfour (ws ← classify count;
                     is_valid ← py_gt_int count 0;
                     ValidationResult_new is_valid sample count ws.1 ws.2)).
  by destruct (delete_step _ _ _) as [[e|[]] σ4].
Qed.

(** X10.  The requests of a validation run are an initial part of: the
    module fetch, the creation of the step, the hit fetch, the
    deletion, in this order and each at most once; the module list is
    never requested. *)
Theorem validate_request_order module_id filters σ :
  ∃ parts step_id sent,
    requests (validate_filters_with_km24 platform module_id filters σ).2
    = requests σ ++ sent ∧
    sent `prefix_of`
      [GET_module module_id;
       POST_step (step_name module_id) module_id 30 parts;
       GET_hits step_id 1 10 "-hitDatetime";
       DELETE_step step_id].
Proof.
  destruct (km24_client σ) as [self|] eqn:Hself.
  2:{ exists [], VNone, []. unfold validate_filters_with_km24. rewrite Hself.
      simpl. rewrite app_nil_r. split; [done|]. by eexists. }
  assert (is_Some (km24_client σ)) as Hc by eauto.
  rewrite validate_unfold by done.
  pose proof (get_module_client platform module_id σ) as Hc1.
  pose proof (get_module_requests platform module_id σ Hc) as Hr1.
  destruct (get_module _ _ _) as [[e|module] σ1]; simpl in Hc1, Hr1.
  { exists [], VNone, [GET_module module_id]. split; [done|]. by eexists. }
  destruct (translate module filters) as [e|[|part parts]].
  { exists [], VNone, [GET_module module_id]. split; [done|]. by eexists. }
  { exists [], VNone, [GET_module module_id].
    rewrite no_filters_result_eq. split; [done|]. by eexists. }
  rewrite <-Hc1 in Hc.
  destruct (validate_with_step_requests module_id (part :: parts) σ1 Hc)
    as (step_id & sent & Hsent & Hprefix & _).
  exists (part :: parts), step_id, (GET_module module_id :: sent). split.
  - destruct (validate_with_step _ _ _ _) as [[e|v] σ2]; simpl in *;
      by rewrite Hsent, Hr1, <-(assoc_L (++)).
  - by apply prefix_cons.
Qed.

(** X11.  A verdict is only returned by a run that left no step behind:
    either the run stopped after the module fetch, with the verdict of
    the empty translation, or it created one step and its last request
    deleted it. *)
Theorem returned_verdict_cleaned_up module_id filters σ verdict σ' :
  validate_filters_with_km24 platform module_id filters σ = (inr verdict, σ') →
  (requests σ' = requests σ ++ [GET_module module_id] ∧
   is_valid verdict = false ∧ sample_hits verdict = []) ∨
  (∃ parts step_id,
     requests σ' = requests σ ++
       [GET_module module_id;
        POST_step (step_name module_id) module_id 30 parts;
        GET_hits step_id 1 10 "-hitDatetime";
        DELETE_step step_id]).
Proof.
  destruct (km24_client σ) as [self|] eqn:Hself.
  2:{ unfold validate_filters_with_km24. by rewrite Hself. }
  assert (is_Some (km24_client σ)) as Hc by eauto.
  rewrite validate_unfold by done.
  pose proof (get_module_client platform module_id σ) as Hc1.
  pose proof (get_module_requests platform module_id σ Hc) as Hr1.
  destruct (get_module _ _ _) as [[e|module] σ1]; simpl in Hc1, Hr1; [done|].
  destruct (translate module filters) as [e|[|part parts]]; [done| |].
  - rewrite no_filters_result_eq. intros [= <- <-]. by left.
  - rewrite <-Hc1 in Hc.
    destruct (validate_with_step_requests module_id (part :: parts) σ1 Hc)
      as (step_id & sent & Hsent & _ & Hall).
    destruct (validate_with_step _ _ _ _) as [[e|v] σ2] eqn:Hrun; [done|].
    intros [= <- <-]. right. exists (part :: parts), step_id.
    simpl in Hsent. rewrite Hsent, (Hall _ _ eq_refl), Hr1.
    by rewrite <-(assoc_L (++)).
Qed.

(** X12.  When the projection of the fetched hits raises, the run ends
    there: the exception is wrapped and raised, and the step, which
    exists, is not deleted. *)
Theorem projection_failure_leaks_step
    module_id filters σ step_id hits_data σ3 e :
  hits_fetched platform module_id filters σ step_id hits_data σ3 →
  project_hits hits_data = inl e →
  validate_filters_with_km24 platform module_id filters σ
  = (inl (HTTPException 500 ("Failed to validate filters: " +:+ exn_str e)),
     add_log (ErrorValidatingFilters e) σ3) ∧
  ∃ parts,
    requests σ3 = requests σ ++
      [GET_module module_id;
       POST_step (step_name module_id) module_id 30 parts;
       GET_hits step_id 1 10 "-hitDatetime"].
Proof.
  intros Hfetched Hproject. split.
  - by rewrite (validate_after_hits _ _ _ _ _ _ _ Hfetched), Hproject.
  - by destruct (hits_fetched_state _ _ _ _ _ _ _ Hfetched) as (_ & _ & ?).
Qed.

(** X13.  When the payload of the hits carries no count, the count is
    taken to be 0: the verdict is not valid and warns that there are no
    hits, whatever sample hits it carries. *)
Theorem missing_count_is_zero
    module_id filters σ step_id d σ3 sample σ4 :
  hits_fetched platform module_id filters σ step_id (VDict d) σ3 →
  d !! "count" = None →
  project_hits (VDict d) = inr sample →
  delete_step platform step_id σ3 = (inr (), σ4) →
  validate_filters_with_km24 platform module_id filters σ
  = (inr {| is_valid := false; sample_hits := sample; hit_count := 0;
            warnings := ["Ingen hits fundet med disse filtre"];
            suggestions :=
              ["Prøv at udvide søgningen ved at fjerne nogle filtre"] |},
     σ4).
Proof.
  intros Hfetched Hcount Hsample Hdelete.
  rewrite (validate_after_hits _ _ _ _ _ _ _ Hfetched), Hsample.
  unfold get. rewrite Hcount. simpl. rewrite Hdelete.
  unfold ValidationResult_new. simpl. by rewrite coerce_int_VInt.
Qed.

(** X14.  When the count of the payload is not a number, the step is
    deleted first and the run fails afterwards, with the [TypeError] of
    the comparison wrapped. *)
Theorem count_not_a_number
    module_id filters σ step_id sample count σ3 σ4 :
  ready_to_clean_up platform module_id filters σ step_id sample count σ3 →
  as_number count = None →
  delete_step platform step_id σ3 = (inr (), σ4) →
  validate_filters_with_km24 platform module_id filters σ
  = (inl (HTTPException 500
            ("Failed to validate filters: " +:+ exn_str TypeError)),
     add_log (ErrorValidatingFilters TypeError) σ4).
Proof.
  intros (hits_data & Hfetched & Hsample & Hcount) Hnumber Hdelete.
  rewrite (validate_after_hits _ _ _ _ _ _ _ Hfetched),
    Hsample, Hcount, Hdelete.
  unfold classify, py_eq_int, py_gt_int. by rewrite Hnumber.
Qed.

(** X15.  A negative count gives a verdict that is not valid and
    carries neither warning nor suggestion. *)
Theorem negative_count_is_silent
    module_id filters σ step_id sample n σ3 σ4 :
  ready_to_clean_up platform module_id filters σ step_id sample (VInt n) σ3 →
  n < 0 →
  delete_step platform step_id σ3 = (inr (), σ4) →
  validate_filters_with_km24 platform module_id filters σ
  = (inr {| is_valid := false; sample_hits := sample; hit_count := n;
            warnings := []; suggestions := [] |},
     σ4).
Proof.
  intros (hits_data & Hfetched & Hsample & Hcount) Hneg Hdelete.
  rewrite (validate_after_hits _ _ _ _ _ _ _ Hfetched),
    Hsample, Hcount, Hdelete.
  unfold classify, py_eq_int, py_gt_int, ValidationResult_new. simpl.
  rewrite coerce_int_VInt.
  assert ((n =? 0) = false) as -> by (apply Z.eqb_neq; lia).
  assert ((100 <? n) = false) as -> by (apply Z.ltb_ge; lia).
  assert ((0 <? n) = false) as -> by (apply Z.ltb_ge; lia).
  done.
Qed.


(** ** Translation and projection *)

Lemma build_part_map_from_app acc parts1 parts2 :
  build_part_map_from acc (parts1 ++ parts2)
  = acc' ← build_part_map_from acc parts1; build_part_map_from acc' parts2.
Proof.
  revert acc. induction parts1 as [|p parts1 IH]; intros acc; [done|].
  simpl. unfold mbind, result_bind in *.
  destruct (part_map_add acc p) as [e|acc']; [done|]. apply IH.
Qed.

Lemma build_part_map_from_other slug acc parts part_map :
  build_part_map_from acc parts = inr part_map →
  (∀ q, q ∈ parts → q !! "slug" ≠ Some (VStr slug)) →
  part_map !! slug = acc !! slug.
Proof.
  revert acc. induction parts as [|p parts IH]; intros acc.
  - by intros [= <-].
  - simpl. unfold mbind, result_bind, part_map_add, dict_getitem.
    intros Hbuild Hother.
    destruct (p !! "slug") as [s|] eqn:Hslug; simpl in Hbuild; [|done].
    destruct (p !! "id") as [i|]; simpl in Hbuild; [|done].
    assert (∀ q, q ∈ parts → q !! "slug" ≠ Some (VStr slug)) as Hrest.
    { intros q Hq. apply Hother. by right. }
    assert (Some s ≠ Some (VStr slug)) as Hs.
    { rewrite <-Hslug. apply Hother. by left. }
    destruct s as [| | |s| |]; try done;
      rewrite (IH _ Hbuild Hrest); try done.
    apply lookup_insert_ne. congruence.
Qed.

Lemma build_part_map_from_ok acc parts :
  Forall well_formed_part parts →
  ∃ part_map, build_part_map_from acc parts = inr part_map.
Proof.
  intros Hwf.
  destruct (build_part_map_from_spec parts acc Hwf) as (part_map & ? & _).
  by exists part_map.
Qed.

(** X16.  When several parts of a module have the same slug, a filter
    for that slug is translated with the id of the last of them. *)
Theorem later_part_wins module parts1 p parts2 slug id (v : value) :
  m_parts module = parts1 ++ p :: parts2 →
  Forall well_formed_part (m_parts module) →
  p !! "slug" = Some (VStr slug) →
  p !! "id" = Some id →
  (∀ q, q ∈ parts2 → q !! "slug" ≠ Some (VStr slug)) →
  truthy v = true →
  translate module [(slug, v)]
  = inr [{| modulePartId := id; values := as_values v |}].
Proof.
  intros Hparts Hwf Hslug Hid Hlater Hv.
  rewrite Hparts in Hwf. apply Forall_app in Hwf as [Hwf1 Hwf2].
  apply Forall_cons in Hwf2 as [_ Hwf2].
  unfold translate, build_part_map. rewrite Hparts, build_part_map_from_app.
  destruct (build_part_map_from_ok ∅ parts1 Hwf1) as (acc1 & ->).
  unfold mbind at 2, result_bind at 2. simpl.
  unfold part_map_add at 1, dict_getitem. rewrite Hslug, Hid. simpl.
  destruct (build_part_map_from_ok (<[slug:=id]> acc1) parts2 Hwf2)
    as (part_map & Hbuild).
  rewrite Hbuild. simpl.
  rewrite (build_part_map_from_other slug _ _ _ Hbuild Hlater).
  by rewrite lookup_insert_eq, Hv.
Qed.

(** X17.  A part without slug makes the translation raise, whatever the
    filters: such a module cannot be validated, not even with an empty
    mapping, which otherwise gets the verdict of the empty
    translation. *)
Theorem part_without_slug_fails module_id filters σ module σ1 parts1 p parts2 :
  get_module platform module_id σ = (inr module, σ1) →
  m_parts module = parts1 ++ p :: parts2 →
  Forall well_formed_part parts1 →
  p !! "slug" = None →
  translate module filters = inl (KeyError "slug") ∧
  validate_filters_with_km24 platform module_id filters σ
  = (inl (HTTPException 500
            ("Failed to validate filters: " +:+ exn_str (KeyError "slug"))),
     add_log (ErrorValidatingFilters (KeyError "slug")) σ1).
Proof.
  intros Hmod Hparts Hwf Hslug.
  assert (translate module filters = inl (KeyError "slug")) as Htr.
  { unfold translate, build_part_map.
    rewrite Hparts, build_part_map_from_app.
    destruct (build_part_map_from_ok ∅ parts1 Hwf) as (acc1 & ->).
    unfold mbind, result_bind. simpl.
    unfold part_map_add, dict_getitem. by rewrite Hslug. }
  split; [done|].
  pose proof (get_module_ok_client _ _ _ _ _ Hmod) as Hc.
  by rewrite validate_unfold, Hmod, Htr.
Qed.

(** X18.  The summary of a projected hit falls back to the description
    only when the raw hit has no summary key: a summary that is null
    stays empty, a raw hit with neither gets the empty string.  The
    date is the raw hit's [hitDatetime]. *)
Theorem projected_summary_and_date d hit :
  project_hit (VDict d) = inr hit →
  (d !! "summary" = Some VNone → hit_summary hit = None) ∧
  (d !! "summary" = None → d !! "description" = None →
   hit_summary hit = Some "") ∧
  (d !! "hitDatetime" = None → hit_date hit = None) ∧
  (∀ date, d !! "hitDatetime" = Some (VStr date) → hit_date hit = Some date).
Proof.
  unfold project_hit, get, Hit_new. unfold mbind at 1 2 3 4 5, result_bind, ok.
  intros Hhit%validated_ok.
  destruct (coerce_str (default (VStr "Untitled") (d !! "title")))
    as [title|]; simpl in Hhit; [|done].
  destruct (coerce_opt_str (default VNone (d !! "hitDatetime")))
    as [date|] eqn:Hdate; simpl in Hhit; [|done].
  destruct (coerce_opt_str
              (default (default (VStr "") (d !! "description"))
                 (d !! "summary")))
    as [summary|] eqn:Hsummary; simpl in Hhit; [|done].
  destruct (coerce_opt_str (default VNone (d !! "url")))
    as [url|]; simpl in Hhit; [|done].
  injection Hhit as <-. simpl. split_and!.
  - intros Hnull. rewrite Hnull in Hsummary. simpl in Hsummary. congruence.
  - intros Hnone Hnone'. rewrite Hnone, Hnone' in Hsummary. simpl in Hsummary.
    rewrite coerce_str_VStr in Hsummary. simpl in Hsummary. congruence.
  - intros Hnone. rewrite Hnone in Hdate. simpl in Hdate. congruence.
  - intros t Ht. rewrite Ht in Hdate. simpl in Hdate.
    rewrite coerce_str_VStr in Hdate. simpl in Hdate. congruence.
Qed.

(** ** [search_hits] *)

(** X19.  Whatever [search_hits] raises is the [HTTPException] with
    status 500 that the validation run inside it raised. *)
Theorem search_hits_error_surface module_id filters limit σ e σ' :
  search_hits platform module_id filters limit σ = (inl e, σ') →
  (∃ detail, e = HTTPException 500 detail) ∧
  validate_filters_with_km24 platform module_id filters
    (add_log (SearchingHits module_id limit) σ) = (inl e, σ').
Proof.
  unfold search_hits, try_except, mbind, M_bind, logger, mret, M_ret.
  destruct (validate_filters_with_km24 _ _ _ _) as [[e0|verdict] σv] eqn:Hrun;
    [|done].
  destruct (validate_raises_500 _ _ _ _ _ Hrun) as (detail & ->).
  intros [= <- <-]. split; by eauto.
Qed.

(** X20.  A limit that is not positive does not make [search_hits]
    raise: a limit of 0, or of -3 and below, gets an empty answer; a
    negative limit cuts the sample from its end, so that -1 leaves at
    most two hits and -2 at most one. *)
Theorem search_hits_nonpositive_limit module_id filters limit σ hits σ' :
  search_hits platform module_id filters limit σ = (inr hits, σ') →
  limit ≤ 0 →
  (limit = 0 ∨ limit ≤ -3 → hits = []) ∧
  (limit < 0 → Z.of_nat (length hits) ≤ Z.max 0 (3 + limit)).
Proof.
  unfold search_hits, try_except, mbind, M_bind, logger, mret, M_ret.
  destruct (validate_filters_with_km24 _ _ _ _) as [[e|verdict] σv] eqn:Hrun.
  { destruct (validate_raises_HTTPException _ _ _ _ _ _ Hrun)
      as (status & detail & ->). done. }
  intros [= <- <-] Hlimit.
  pose proof (validate_ok_sample_bound _ _ _ _ _ _ Hrun) as Hbound.
  assert (Z.of_nat (length (slice_to (sample_hits verdict) limit))
          ≤ Z.max 0 (Z.of_nat (length (sample_hits verdict)) + limit) ∧
          (limit = 0 → length (slice_to (sample_hits verdict) limit) = 0%nat))
    as [Hlen Hzero].
  { unfold slice_to.
    destruct (0 <=? limit) eqn:Hsign;
      [apply Z.leb_le in Hsign | apply Z.leb_gt in Hsign];
      rewrite length_take; lia. }
  split.
  - intros Hnone.
    destruct (slice_to _ _) as [|first rest]; [done|].
    change (length (first :: rest)) with (S (length rest)) in Hlen, Hzero.
    exfalso. lia.
  - lia.
Qed.

End Validation_edges.

(* ===================================================================== *)
(** * Properties of the endpoints, the lifespan hook and company search   *)
(* ===================================================================== *)

Section Application_properties.
Context `{!Runtime}.
Variable platform : list request → request → reply.
Variable company_platform : list request → list string → string → reply.

Ltac unfold_app :=
  unfold mbind, mret, App_bind, App_ret, app_try_except, app_raise, app_lift,
    app_logger, in_service, the_km24_client, the_anthropic_client in *.

(** X21.  Whatever the endpoint [/api/modules] raises is an
    [HTTPException] with status 500: "KM24 API not configured", and
    nothing done, when there is no client; otherwise the text of the
    exception that [get_modules] raised, which is logged last. *)
Theorem api_get_modules_error_surface s e s' :
  api_get_modules platform s = (inl e, s') →
  (km24_client (service s) = None ∧ s' = s ∧
   e = HTTPException 500 "KM24 API not configured") ∨
  (∃ cause σ',
     get_modules platform false (service s) = (inl cause, σ') ∧
     e = HTTPException 500 (exn_str cause) ∧
     s' = add_app_log (ErrorGettingModules cause) (set_service σ' s)).
Proof.
  unfold api_get_modules. unfold_app.
  destruct (km24_client (service s)) as [self|] eqn:Hself; simpl.
  - destruct (get_modules platform false (service s)) as [[cause|ms] σ'];
      simpl; [|done].
    intros [= <- <-]. right. by exists cause, σ'.
  - intros [= <- <-]. by left.
Qed.

(** X22.  Once a call of [get_modules] has returned a list that is not
    empty, the endpoints [/api/modules] and [/health] answer from it
    and leave everything as it is: nothing is sent to the platform, and
    the health check reports KM24 as "ok" without having asked it. *)
Theorem cached_modules_answer_endpoints force_refresh σ0 m ms s :
  get_modules platform force_refresh σ0 = (inr (m :: ms), service s) →
  api_get_modules platform s = (inr (module_entry <$> m :: ms), s) ∧
  ∃ health,
    health_check platform s = (inr health, s) ∧
    health_status health = "ok" ∧
    health_km24_status health = "ok" ∧
    health_km24_modules_count health = length (m :: ms).
Proof.
  intros Hfetched.
  destruct (get_modules_ok_cache _ _ _ _ _ Hfetched) as (self & Hself & Hcache).
  pose proof (get_modules_hit platform _ _ _ _ Hself Hcache) as Hcached.
  assert (set_service (service s) s = s) as Hsame by (by destruct s).
  split.
  - unfold api_get_modules. unfold_app. rewrite Hself, Hcached. simpl.
    by rewrite Hsame.
  - unfold health_check. unfold_app. rewrite Hself, Hcached. simpl.
    rewrite Hsame. by eexists.
Qed.

(** X23.  The health check never raises and always reports the status
    "ok" for the service itself.  Without a client it reports KM24 as
    "not configured" and touches nothing; when [get_modules] raises it
    reports "error"; when [get_modules] returns it reports "ok" and the
    number of modules. *)
Theorem health_check_never_raises s :
  ∃ health s',
    health_check platform s = (inr health, s') ∧
    health_status health = "ok" ∧
    (km24_client (service s) = None →
     s' = s ∧ health_km24_status health = "not configured" ∧
     health_km24_modules_count health = 0%nat) ∧
    (is_Some (km24_client (service s)) →
     match get_modules platform false (service s) with
     | (inl _, σ') =>
         s' = set_service σ' s ∧ health_km24_status health = "error" ∧
         health_km24_modules_count health = 0%nat
     | (inr modules, σ') =>
         s' = set_service σ' s ∧ health_km24_status health = "ok" ∧
         health_km24_modules_count health = length modules
     end).
Proof.
  unfold health_check. unfold_app.
  destruct (km24_client (service s)) as [self|] eqn:Hself; simpl.
  - destruct (get_modules platform false (service s)) as [[e|ms] σ'];
      simpl; eexists _, _; split_and!; done.
  - eexists _, _. by split_and!.
Qed.

(** X24.  The startup half of the lifespan hook never raises: a failure
    of the module fetch is logged and swallowed, and leaves the client
    without a cached list as it was. *)
Theorem lifespan_startup_never_raises s :
  ∃ s',
    lifespan_startup platform s = (inr (), s') ∧
    (km24_client (service s) = None →
     s' = add_app_log StartingBackend s) ∧
    (is_Some (km24_client (service s)) →
     match get_modules platform false (service s) with
     | (inl e, σ') =>
         km24_client σ' = km24_client (service s) ∧
         s' = add_app_log (FailedToCacheModules e)
                (set_service σ' (add_app_log StartingBackend s))
     | (inr _, σ') =>
         s' = add_app_log ModulesCached
                (set_service σ' (add_app_log StartingBackend s))
     end).
Proof.
  unfold lifespan_startup. unfold_app. simpl.
  destruct (km24_client (service s)) as [self|] eqn:Hself; simpl.
  - pose proof (get_modules_raise_client platform false (service s))
      as Hkeep.
    destruct (get_modules platform false (service s)) as [[e|ms] σ'];
      simpl; eexists; split_and!; try done.
    intros Hc. split; [|done].
    by rewrite (Hkeep e σ' eq_refl).
  - eexists. by split_and!.
Qed.

(** X25.  The endpoint [/api/monitoring/validate-filters] returns or
    raises what [validate_filters_with_km24] returns or raises, after
    one log line of its own; its second [except] clause never runs. *)
Theorem validate_filters_endpoint module_id filters s :
  validate_filters platform module_id filters s
  = ((validate_filters_with_km24 platform module_id filters (service s)).1,
     set_service
       (validate_filters_with_km24 platform module_id filters (service s)).2
       (add_app_log (ValidatingFilters module_id filters) s)).
Proof.
  unfold validate_filters. unfold_app. simpl.
  destruct (validate_filters_with_km24 _ _ _ _) as [[e|verdict] σ'] eqn:Hrun;
    simpl; [|done].
  by destruct (validate_raises_HTTPException _ _ _ _ _ _ Hrun)
    as (status & detail & ->).
Qed.

(** X26.  What [search_company] returns is the [results] of the decoded
    body of a 2xx answer, or the empty list when the body has no
    results; the search has been sent once, and the world of the
    validation pipeline, cache included, is as before. *)
Theorem search_company_returns_results query s results s' :
  search_company company_platform query s = (inr results, s') →
  ∃ status d,
    company_platform (requests (service s)) (company_queries s) query
    = Response status (Some (VDict d)) ∧
    200 ≤ status ≤ 299 ∧
    results = default (VList []) (d !! "results") ∧
    service s' = service s ∧
    company_queries s' = company_queries s ++ [query].
Proof.
  unfold search_company, company_http, raise_for_status, json.
  unfold_app. unfold this, raise, mret, M_ret. simpl.
  destruct (km24_client (service s)) as [self|] eqn:Hself; simpl; [|done].
  destruct (company_platform _ _ _) as [|status [data|]]; simpl; [done| |];
    destruct ((200 <=? status) && (status <=? 299)) eqn:Hcheck; simpl;
    try done.
  apply andb_true_iff in Hcheck as [?%Z.leb_le ?%Z.leb_le].
  destruct data as [| | | | |d]; simpl; try done.
  unfold mbind, result_bind. simpl.
  destruct (len (default (VList []) (d !! "results"))) as [e|n]; simpl;
    [done|].
  intros [= <- <-]. exists status, d. by split_and!.
Qed.

(** X27.  A body whose [results] is null, a number or a boolean makes
    [search_company] raise [TypeError], after the search was sent: the
    results are measured with [len] for the log line before they are
    returned. *)
Theorem search_company_unsized_results query s status d results :
  is_Some (km24_client (service s)) →
  company_platform (requests (service s)) (company_queries s) query
  = Response status (Some (VDict d)) →
  200 ≤ status ≤ 299 →
  d !! "results" = Some results →
  len results = inl TypeError →
  search_company company_platform query s
  = (inl TypeError,
     add_app_log (ErrorSearchingCompanies TypeError)
       (add_company_query query s)).
Proof.
  intros [self Hself] Hreply Hstatus Hresults Hlen.
  unfold search_company, company_http, raise_for_status, json.
  unfold_app. unfold this, raise, mret, M_ret. simpl.
  rewrite Hself. simpl. rewrite Hreply. simpl.
  assert ((200 <=? status) && (status <=? 299) = true) as ->.
  { apply andb_true_iff. rewrite !Z.leb_le. lia. }
  simpl. unfold mbind, result_bind. simpl. rewrite Hresults. simpl.
  rewrite Hlen. simpl. by destruct s.
Qed.

End Application_properties.

(* ===================================================================== *)
(** * The edge scenarios, run                                             *)
(* ===================================================================== *)

Section More_runs.
Import Scenario Edge.

Ltac run := vm_compute; reflexivity.

Ltac created_on platform :=
  exists module110_loaded, (dict [("id", VInt 42)]), loaded;
  split_and!; [run | run | discriminate | run | run].

Ltac fetched_on platform :=
  exists aarhus_parts, created; split; [created_on platform | run].

Ltac ready_on platform hits :=
  exists hits; split_and!; [fetched_on platform | run | run].

Lemma get_modules_failure_keeps_cache_witness :
  is_Some (km24_client warm) ∧
  get_modules platform_down true warm
  = (inl ConnectError,
     add_log (ErrorFetchingModules ConnectError)
       (add_request GET_modules warm)) ∧
  km24_client
    (add_log (ErrorFetchingModules ConnectError)
       (add_request GET_modules warm))
  = km24_client warm.
Proof.
  assert (is_Some (km24_client warm)) as Hclient by (by eexists).
  assert (get_modules platform_down true warm
          = (inl ConnectError,
             add_log (ErrorFetchingModules ConnectError)
               (add_request GET_modules warm))) as Hrun by run.
  split; [exact Hclient|]. split; [exact Hrun|].
  exact (proj1 (get_modules_failure_keeps_cache _ _ _ _ _ Hclient Hrun)).
Defined.

Lemma get_modules_then_cached_witness :
  get_modules (platform_ok 5) false fresh = (inr [arbejdstilsyn], warm) ∧
  get_modules (platform_ok 5) false warm = (inr [arbejdstilsyn], warm).
Proof.
  assert (get_modules (platform_ok 5) false fresh
          = (inr [arbejdstilsyn], warm)) as Hrun by run.
  split; [exact Hrun|].
  exact (get_modules_then_cached _ _ _ _ _ _ Hrun).
Defined.

Lemma empty_module_list_is_fetched_again_witness :
  get_modules platform_no_modules false fresh = (inr [], emptied) ∧
  requests (get_modules platform_no_modules false emptied).2
  = requests emptied ++ [GET_modules].
Proof.
  assert (get_modules platform_no_modules false fresh = (inr [], emptied))
    as Hrun by run.
  split; [exact Hrun|].
  exact (empty_module_list_is_fetched_again _ _ _ _ Hrun).
Defined.

Lemma non_2xx_raises_witness :
  is_Some (km24_client fresh) ∧
  (404 < 200 ∨ 299 < 404) ∧
  get_module platform_no_module 110 fresh
  = (inl (HTTPStatusError 404),
     add_log (ErrorFetchingModule 110 (HTTPStatusError 404))
       (add_request (GET_module 110) fresh)).
Proof.
  assert (is_Some (km24_client fresh)) as Hclient by (by eexists).
  assert (404 < 200 ∨ 299 < 404) as Hstatus by (right; lia).
  split; [exact Hclient|]. split; [exact Hstatus|].
  destruct (non_2xx_raises platform_no_module 110 "" [] 30 (VInt 42) 1 10 ""
              fresh 404 None Hclient Hstatus) as (Hmodule & _).
  exact (Hmodule eq_refl).
Defined.

Lemma delete_step_returns_iff_witness :
  is_Some (km24_client fetched) ∧
  (delete_step (platform_ok 5) (VInt 42) fetched).1 = inr ().
Proof.
  assert (is_Some (km24_client fetched)) as Hclient by (by eexists).
  split; [exact Hclient|].
  apply (proj2 (delete_step_returns_iff (platform_ok 5) (VInt 42) fetched
                  Hclient)).
  exists 204, None. split; [reflexivity | lia].
Defined.

Lemma create_step_without_id_witness :
  is_Some (km24_client loaded) ∧
  platform_step_without_id (requests loaded) temp_step
  = Response 201
      (Some (VDict (list_to_map [("name", VStr "__temp_validation_110")]))) ∧
  200 ≤ 201 ≤ 299 ∧
  create_step platform_step_without_id "__temp_validation_110" 110
    aarhus_parts 30 loaded
  = (inl (KeyError "id"),
     add_log (ErrorCreatingStep (KeyError "id")) (add_request temp_step loaded)).
Proof.
  assert (is_Some (km24_client loaded)) as Hclient by (by eexists).
  assert (platform_step_without_id (requests loaded) temp_step
          = Response 201
              (Some (VDict (list_to_map
                              [("name", VStr "__temp_validation_110")]))))
    as Hreply by reflexivity.
  assert (200 ≤ 201 ≤ 299) as Hstatus by lia.
  split; [exact Hclient|]. split; [exact Hreply|]. split; [exact Hstatus|].
  apply (create_step_without_id _ _ _ _ _ _ _ _ Hclient Hreply Hstatus).
  run.
Defined.


Lemma validate_error_surface_witness :
  validate_filters_with_km24 platform_down 110 kommune_aarhus fresh
  = (inl (HTTPException 500 "Failed to validate filters: connection failed"),
     add_log (ErrorValidatingFilters ConnectError)
       (add_log (ErrorFetchingModule 110 ConnectError)
          (add_request (GET_module 110) fresh))) ∧
  is_Some (km24_client fresh).
Proof.
  assert (validate_filters_with_km24 platform_down 110 kommune_aarhus fresh
          = (inl (HTTPException 500
                    "Failed to validate filters: connection failed"),
             add_log (ErrorValidatingFilters ConnectError)
               (add_log (ErrorFetchingModule 110 ConnectError)
                  (add_request (GET_module 110) fresh)))) as Hrun by run.
  split; [exact Hrun|].
  destruct (validate_error_surface _ _ _ _ _ _ Hrun)
    as [(Hnone & _)|(Hclient & _)]; [discriminate Hnone | exact Hclient].
Defined.

Lemma returned_verdict_cleaned_up_witness :
  validate_filters_with_km24 (platform_ok 5) 110 kommune_aarhus fresh
  = (inr {| is_valid := true; sample_hits := sample; hit_count := 5;
            warnings := []; suggestions := [] |},
     deleted) ∧
  ∃ parts step_id,
    requests deleted = requests fresh ++
      [GET_module 110; POST_step (step_name 110) 110 30 parts;
       GET_hits step_id 1 10 "-hitDatetime"; DELETE_step step_id].
Proof.
  assert (validate_filters_with_km24 (platform_ok 5) 110 kommune_aarhus fresh
          = (inr {| is_valid := true; sample_hits := sample; hit_count := 5;
                    warnings := []; suggestions := [] |},
             deleted)) as Hrun by run.
  split; [exact Hrun|].
  destruct (returned_verdict_cleaned_up _ _ _ _ _ _ Hrun)
    as [(_ & Hvalid & _)|Hdeleted]; [discriminate Hvalid | exact Hdeleted].
Defined.

Lemma projection_failure_leaks_step_witness :
  hits_fetched (platform_with_hits null_title_hits) 110 kommune_aarhus fresh
    (VInt 42) null_title_hits (fetched_hits 1) ∧
  project_hits null_title_hits = inl ValidationError ∧
  validate_filters_with_km24 (platform_with_hits null_title_hits) 110
    kommune_aarhus fresh
  = (inl (HTTPException 500 "Failed to validate filters: validation error"),
     add_log (ErrorValidatingFilters ValidationError) (fetched_hits 1)).
Proof.
  assert (hits_fetched (platform_with_hits null_title_hits) 110 kommune_aarhus
            fresh (VInt 42) null_title_hits (fetched_hits 1)) as Hfetched
    by fetched_on (platform_with_hits null_title_hits).
  assert (project_hits null_title_hits = inl ValidationError) as Hproject
    by run.
  split; [exact Hfetched|]. split; [exact Hproject|].
  exact (proj1 (projection_failure_leaks_step _ _ _ _ _ _ _ _
                  Hfetched Hproject)).
Defined.

Lemma missing_count_is_zero_witness :
  hits_fetched (platform_with_hits uncounted_hits) 110 kommune_aarhus fresh
    (VInt 42) uncounted_hits (fetched_hits 2) ∧
  project_hits uncounted_hits = inr [hit "1"; hit "2"] ∧
  delete_step (platform_with_hits uncounted_hits) (VInt 42) (fetched_hits 2)
  = (inr (), deleted_hits 2) ∧
  validate_filters_with_km24 (platform_with_hits uncounted_hits) 110
    kommune_aarhus fresh
  = (inr {| is_valid := false; sample_hits := [hit "1"; hit "2"];
            hit_count := 0;
            warnings := ["Ingen hits fundet med disse filtre"];
            suggestions :=
              ["Prøv at udvide søgningen ved at fjerne nogle filtre"] |},
     deleted_hits 2).
Proof.
  assert (hits_fetched (platform_with_hits uncounted_hits) 110 kommune_aarhus
            fresh (VInt 42) uncounted_hits (fetched_hits 2)) as Hfetched
    by fetched_on (platform_with_hits uncounted_hits).
  assert (project_hits uncounted_hits = inr [hit "1"; hit "2"]) as Hsample
    by run.
  assert (delete_step (platform_with_hits uncounted_hits) (VInt 42)
            (fetched_hits 2) = (inr (), deleted_hits 2)) as Hdelete by run.
  split; [exact Hfetched|]. split; [exact Hsample|]. split; [exact Hdelete|].
  apply (missing_count_is_zero _ _ _ _ _ _ _ _ _ Hfetched); [run | exact Hsample | exact Hdelete].
Defined.

Lemma count_not_a_number_witness :
  ready_to_clean_up (platform_with_hits text_count_hits) 110 kommune_aarhus
    fresh (VInt 42) [hit "1"; hit "2"] (VStr "mange") (fetched_hits 2) ∧
  as_number (VStr "mange") = None ∧
  delete_step (platform_with_hits text_count_hits) (VInt 42) (fetched_hits 2)
  = (inr (), deleted_hits 2) ∧
  validate_filters_with_km24 (platform_with_hits text_count_hits) 110
    kommune_aarhus fresh
  = (inl (HTTPException 500 "Failed to validate filters: type error"),
     add_log (ErrorValidatingFilters TypeError) (deleted_hits 2)).
Proof.
  assert (ready_to_clean_up (platform_with_hits text_count_hits) 110
            kommune_aarhus fresh (VInt 42) [hit "1"; hit "2"] (VStr "mange")
            (fetched_hits 2)) as Hready
    by ready_on (platform_with_hits text_count_hits) text_count_hits.
  assert (as_number (VStr "mange") = None) as Hnumber by reflexivity.
  assert (delete_step (platform_with_hits text_count_hits) (VInt 42)
            (fetched_hits 2) = (inr (), deleted_hits 2)) as Hdelete by run.
  split; [exact Hready|]. split; [exact Hnumber|]. split; [exact Hdelete|].
  exact (count_not_a_number _ _ _ _ _ _ _ _ _ Hready Hnumber Hdelete).
Defined.

Lemma negative_count_is_silent_witness :
  ready_to_clean_up (platform_ok (-1)) 110 kommune_aarhus fresh (VInt 42)
    sample (VInt (-1)) fetched ∧
  -1 < 0 ∧
  delete_step (platform_ok (-1)) (VInt 42) fetched = (inr (), deleted) ∧
  validate_filters_with_km24 (platform_ok (-1)) 110 kommune_aarhus fresh
  = (inr {| is_valid := false; sample_hits := sample; hit_count := -1;
            warnings := []; suggestions := [] |},
     deleted).
Proof.
  assert (ready_to_clean_up (platform_ok (-1)) 110 kommune_aarhus fresh
            (VInt 42) sample (VInt (-1)) fetched) as Hready
    by ready_on (platform_ok (-1)) (hits_page (-1)).
  assert (-1 < 0) as Hneg by lia.
  assert (delete_step (platform_ok (-1)) (VInt 42) fetched
          = (inr (), deleted)) as Hdelete by run.
  split; [exact Hready|]. split; [exact Hneg|]. split; [exact Hdelete|].
  exact (negative_count_is_silent _ _ _ _ _ _ _ _ _ Hready Hneg Hdelete).
Defined.


Lemma later_part_wins_witness :
  m_parts kommune_twice
  = [kommune_part; problem_part] ++ kommune_part_again :: [reaktion_part] ∧
  Forall well_formed_part (m_parts kommune_twice) ∧
  translate kommune_twice kommune_aarhus
  = inr [{| modulePartId := VInt 8; values := [VStr "Aarhus"] |}].
Proof.
  assert (m_parts kommune_twice
          = [kommune_part; problem_part] ++
              kommune_part_again :: [reaktion_part]) as Hparts
    by reflexivity.
  assert (Forall well_formed_part (m_parts kommune_twice)) as Hwf.
  { repeat constructor; by eexists; vm_compute; reflexivity. }
  split; [exact Hparts|]. split; [exact Hwf|].
  apply (later_part_wins kommune_twice _ kommune_part_again _ "kommune"
           (VInt 8) (VStr "Aarhus") Hparts Hwf).
  - run.
  - run.
  - intros q Hq. apply list_elem_of_singleton in Hq as ->.
    vm_compute. discriminate.
  - reflexivity.
Defined.

Lemma part_without_slug_fails_witness :
  get_module platform_slugless 110 fresh
  = (inr slugless_loaded_module, slugless_loaded) ∧
  Forall well_formed_part [kommune_part] ∧
  slugless_part !! "slug" = None ∧
  translate slugless_loaded_module [] = inl (KeyError "slug") ∧
  validate_filters_with_km24 platform_slugless 110 [] fresh
  = (inl (HTTPException 500 "Failed to validate filters: 'slug'"),
     add_log (ErrorValidatingFilters (KeyError "slug")) slugless_loaded).
Proof.
  assert (get_module platform_slugless 110 fresh
          = (inr slugless_loaded_module, slugless_loaded)) as Hmodule by run.
  assert (Forall well_formed_part [kommune_part]) as Hwf.
  { repeat constructor; by eexists; vm_compute; reflexivity. }
  assert (slugless_part !! "slug" = None) as Hslug by run.
  split; [exact Hmodule|]. split; [exact Hwf|]. split; [exact Hslug|].
  exact (part_without_slug_fails _ _ [] _ _ _ [kommune_part] slugless_part []
           Hmodule eq_refl Hwf Hslug).
Defined.

Lemma projected_summary_and_date_witness :
  project_hit (VDict null_summary_hit)
  = inr {| hit_title := "Påbud"; hit_date := Some "2024-11-05T10:00:00";
           hit_summary := None; hit_url := None |} ∧
  null_summary_hit !! "summary" = Some VNone ∧
  hit_summary {| hit_title := "Påbud";
                 hit_date := Some "2024-11-05T10:00:00";
                 hit_summary := None; hit_url := None |} = None.
Proof.
  assert (project_hit (VDict null_summary_hit)
          = inr {| hit_title := "Påbud";
                   hit_date := Some "2024-11-05T10:00:00";
                   hit_summary := None; hit_url := None |}) as Hhit by run.
  assert (null_summary_hit !! "summary" = Some VNone) as Hnull by run.
  split; [exact Hhit|]. split; [exact Hnull|].
  exact (proj1 (projected_summary_and_date _ _ Hhit) Hnull).
Defined.

Lemma search_hits_error_surface_witness :
  search_hits platform_down 110 kommune_aarhus 10 fresh
  = (inl (HTTPException 500 "Failed to validate filters: connection failed"),
     add_log (ErrorValidatingFilters ConnectError)
       (add_log (ErrorFetchingModule 110 ConnectError)
          (add_request (GET_module 110)
             (add_log (SearchingHits 110 10) fresh)))) ∧
  ∃ detail,
    HTTPException 500 "Failed to validate filters: connection failed"
    = HTTPException 500 detail.
Proof.
  assert (search_hits platform_down 110 kommune_aarhus 10 fresh
          = (inl (HTTPException 500
                    "Failed to validate filters: connection failed"),
             add_log (ErrorValidatingFilters ConnectError)
               (add_log (ErrorFetchingModule 110 ConnectError)
                  (add_request (GET_module 110)
                     (add_log (SearchingHits 110 10) fresh))))) as Hrun
    by run.
  split; [exact Hrun|].
  exact (proj1 (search_hits_error_surface _ _ _ _ _ _ _ Hrun)).
Defined.

Lemma search_hits_nonpositive_limit_witness :
  search_hits (platform_ok 5) 110 kommune_aarhus (-1) fresh
  = (inr [hit "1"; hit "2"],
     (search_hits (platform_ok 5) 110 kommune_aarhus (-1) fresh).2) ∧
  -1 ≤ 0 ∧
  Z.of_nat (length [hit "1"; hit "2"]) ≤ Z.max 0 (3 + -1).
Proof.
  assert (search_hits (platform_ok 5) 110 kommune_aarhus (-1) fresh
          = (inr [hit "1"; hit "2"],
             (search_hits (platform_ok 5) 110 kommune_aarhus (-1) fresh).2))
    as Hrun by run.
  assert (-1 ≤ 0) as Hlimit by lia.
  split; [exact Hrun|]. split; [exact Hlimit|].
  apply (proj2 (search_hits_nonpositive_limit _ _ _ _ _ _ _ Hrun Hlimit)).
  lia.
Defined.

Lemma api_get_modules_error_surface_witness :
  api_get_modules platform_down (app_of fresh)
  = (inl (HTTPException 500 "connection failed"),
     add_app_log (ErrorGettingModules ConnectError)
       (set_service
          (add_log (ErrorFetchingModules ConnectError)
             (add_request GET_modules fresh))
          (app_of fresh))) ∧
  ∃ cause σ',
    get_modules platform_down false (service (app_of fresh))
    = (inl cause, σ') ∧
    HTTPException 500 "connection failed" = HTTPException 500 (exn_str cause).
Proof.
  assert (api_get_modules platform_down (app_of fresh)
          = (inl (HTTPException 500 "connection failed"),
             add_app_log (ErrorGettingModules ConnectError)
               (set_service
                  (add_log (ErrorFetchingModules ConnectError)
                     (add_request GET_modules fresh))
                  (app_of fresh)))) as Hrun by run.
  split; [exact Hrun|].
  destruct (api_get_modules_error_surface _ _ _ _ Hrun)
    as [(Hnone & _)|(cause & σ' & Hcause & He & _)];
    [discriminate Hnone | by exists cause, σ'].
Defined.

Lemma cached_modules_answer_endpoints_witness :
  get_modules platform_down false warm
  = (inr [arbejdstilsyn], service (app_of warm)) ∧
  api_get_modules platform_down (app_of warm)
  = (inr [{| entry_id := 110; entry_title := "Arbejdstilsyn";
             entry_emoji := "ðŸ“Š"; entry_description := None |}],
     app_of warm).
Proof.
  assert (get_modules platform_down false warm
          = (inr [arbejdstilsyn], service (app_of warm))) as Hcached by run.
  split; [exact Hcached|].
  exact (proj1 (cached_modules_answer_endpoints platform_down false warm
                  arbejdstilsyn [] (app_of warm) Hcached)).
Defined.

Lemma search_company_returns_results_witness :
  search_company companies_ok "Novo" (app_of fresh)
  = (inr (VList [novo]),
     add_app_log (FoundCompanies 1 "Novo")
       (add_company_query "Novo" (app_of fresh))) ∧
  ∃ status d,
    companies_ok [] [] "Novo" = Response status (Some (VDict d)) ∧
    VList [novo] = default (VList []) (d !! "results").
Proof.
  assert (search_company companies_ok "Novo" (app_of fresh)
          = (inr (VList [novo]),
             add_app_log (FoundCompanies 1 "Novo")
               (add_company_query "Novo" (app_of fresh)))) as Hrun by run.
  split; [exact Hrun|].
  destruct (search_company_returns_results _ _ _ _ _ Hrun)
    as (status & d & Hreply & _ & Hresults & _).
  by exists status, d.
Defined.

Lemma search_company_unsized_results_witness :
  is_Some (km24_client (service (app_of fresh))) ∧
  companies_null [] [] "Novo"
  = Response 200 (Some (VDict (list_to_map [("results", VNone)]))) ∧
  len VNone = inl TypeError ∧
  search_company companies_null "Novo" (app_of fresh)
  = (inl TypeError,
     add_app_log (ErrorSearchingCompanies TypeError)
       (add_company_query "Novo" (app_of fresh))).
Proof.
  assert (is_Some (km24_client (service (app_of fresh)))) as Hclient
    by (by eexists).
  assert (companies_null [] [] "Novo"
          = Response 200 (Some (VDict (list_to_map [("results", VNone)]))))
    as Hreply by reflexivity.
  assert (len VNone = inl TypeError) as Hlen by reflexivity.
  split; [exact Hclient|]. split; [exact Hreply|]. split; [exact Hlen|].
  apply (search_company_unsized_results companies_null "Novo" (app_of fresh)
           200 _ VNone Hclient Hreply); [lia | run | exact Hlen].
Defined.

End More_runs.
